(** * Order lifecycle of the AgStore backend: pricing, stock and rooms

    A shallow embedding of the order controller
    ([controllers/order/order.js]) together with the Mongoose models it
    reads and writes ([models/order.js], [models/product.js],
    [models/address.js], [models/user.js]).

    Conventions of the embedding:
    - a JavaScript [Number] holding a price, a fee or a coordinate is an
      IEEE 754 binary64 value, a [spec_float] of the standard library at
      precision 53, with its arithmetic ([SFadd], [SFmul], [SFdiv],
      [SFcompare]) rounding to nearest, ties to even; a [Number] holding
      a count of units or a stock level is an integer [Z];
    - an optional document field is an [option]; JavaScript truthiness of
      such a field is written out ([truthyN], [truthyZ], [truthyS]);
    - a Mongoose collection is a [gmap] from the document id, an
      [ObjectId] written as its 24 lower-case hexadecimal digits, to the
      document; [Product.updateOne] writes through at once, whereas an
      order fetched with [Order.findById] is a local copy that reaches the
      collection only at [order.save()];
    - the queries of [createOrder] cast the ids of the request body
      ([castObjectId]); the other handlers are modelled on requests whose
      ids are [ObjectId]s in that written form;
    - a handler is a function from the request and the world to the HTTP
      response and the new world; an exception caught by the handler's
      [catch] block is the 500 response built from the world as it was
      when the exception was raised;
    - the Socket.IO server is a map from room names to the sockets that
      joined them, and a log of the events that were emitted;
    - [console.log] and friends are not part of the world. *)

From Stdlib Require Import ZArith String Ascii List Lia SpecFloat.
From stdpp Require Import gmap strings list fin_maps pretty sorting.

Local Open Scope string_scope.
Local Open Scope list_scope.
Local Open Scope Z_scope.

(** ** JavaScript values *)

(** A [Number]: binary64, that is 53 bits of precision and exponents
    below 1024. *)
Definition number : Type := spec_float.

Definition prec : Z := 53.
Definition emax : Z := 1024.

(** [x + y], [x * y], [x / y], [x < y] and [x <= y] on Numbers. *)
Definition num_add (x y : number) : number := SFadd prec emax x y.
Definition num_mul (x y : number) : number := SFmul prec emax x y.
Definition num_div (x y : number) : number := SFdiv prec emax x y.
Definition num_ltb (x y : number) : bool := SFltb x y.
Definition num_leb (x y : number) : bool := SFleb x y.

(** The Number nearest to the fraction [n / d] of a natural number [n]
    and a positive [d], with the given sign; a tie goes to the even
    mantissa.  This is the rounding of a division, applied to operands of
    any size. *)
Definition nearest (negative : bool) (n d : Z) : number :=
  match n with
  | Z0 => S754_zero negative
  | _ =>
      let '(m, e, l) := SFdiv_core_binary prec emax n 0 d 0 in
      binary_round_aux prec emax negative m e l
  end.

(** The Number that an integer converts to. *)
Definition ofZ (z : Z) : number := nearest (z <? 0) (Z.abs z) 1.

(** The Number that the decimal numeral [n * 10^-k] reads as, as
    [JSON.parse] and numeric literals do. *)
Definition decimal (n : Z) (k : nat) : number :=
  nearest (n <? 0) (Z.abs n) (10 ^ Z.of_nat k).

Definition zero : number := S754_zero false.

(** A Number is falsy when it is [0], [-0] or [NaN]. *)
Definition truthyN (x : number) : bool :=
  match x with
  | S754_zero _ | S754_nan => false
  | _ => true
  end.

Definition isNaN (x : number) : bool :=
  match x with S754_nan => true | _ => false end.

Definition truthyZ (z : Z) : bool := negb (z =? 0).
Definition truthyS (s : string) : bool := negb (String.eqb s "").

(** [x ?? d] *)
Definition nullish {A} (x : option A) (d : A) : A :=
  match x with Some v => v | None => d end.

(** [Number(x.toFixed(2))].  [toFixed] splits the sign off, takes the
    integer [n] for which [n / 100] is nearest to the exact magnitude of
    [x], the larger one on a tie, and writes [n / 100] in decimal;
    [Number] reads that numeral back.  [NaN] and the infinities print as
    their names and read back as themselves, and [-0] prints as
    ["0.00"]. *)
Definition toFixed2 (x : number) : number :=
  match x with
  | S754_finite s m e =>
      let n :=
        match e with
        | Zneg p => (200 * Zpos m + 2 ^ Zpos p) / 2 ^ (Zpos p + 1)
        | _ => 100 * Zpos m * 2 ^ e
        end in
      nearest s n 100
  | S754_zero _ => zero
  | _ => x
  end.

#[global] Arguments nearest : simpl never.
#[global] Arguments ofZ : simpl never.
#[global] Arguments decimal : simpl never.
#[global] Arguments num_add : simpl never.
#[global] Arguments num_mul : simpl never.
#[global] Arguments num_div : simpl never.
#[global] Arguments num_ltb : simpl never.
#[global] Arguments num_leb : simpl never.
#[global] Arguments toFixed2 : simpl never.

(** An id is either a string (a JSON body field, a route parameter) or a
    Mongoose [ObjectId] (the [_id] of a fetched document). *)
Inductive JsId :=
| IdString (s : string)
| IdObject (hex : string).

Definition toString (i : JsId) : string :=
  match i with IdString s => s | IdObject s => s end.

(** [s !== i] for a string [s]: operands of different types are never
    strictly equal. *)
Definition strict_neq (s : string) (i : JsId) : bool :=
  match i with
  | IdString t => negb (String.eqb s t)
  | IdObject _ => true
  end.

Definition isHexDigit (c : ascii) : bool :=
  let n := nat_of_ascii c in
  ((48 <=? n) && (n <=? 57) || (65 <=? n) && (n <=? 70)
   || (97 <=? n) && (n <=? 102))%nat.

Definition lowerCase (c : ascii) : ascii :=
  let n := nat_of_ascii c in
  if ((65 <=? n) && (n <=? 90))%nat then ascii_of_nat (n + 32) else c.

Fixpoint mapString (f : ascii -> ascii) (s : string) : string :=
  match s with
  | EmptyString => EmptyString
  | String c rest => String (f c) (mapString f rest)
  end.

(** The cast of a string to an [ObjectId] that a query on [_id] or on a
    reference performs: a string of 24 hexadecimal digits is the id that
    prints as those digits in lower case; any other string raises
    [CastError], here [None]. *)
Definition castObjectId (s : string) : option string :=
  if (String.length s =? 24)%nat && forallb isHexDigit (list_ascii_of_string s)
  then Some (mapString lowerCase s)
  else None.

#[global] Arguments castObjectId : simpl never.

(** ** Documents *)

Module Product.
Record t := mk {
  _id : string;
  name : string;
  brand : option string;
  quantityValue : string;
  quantityUnit : string;
  basePrice : number;
  discountPrice : option number;
  subscriptionPrice : option number;
  unitPerSubscription : option Z;
  stock : Z;
  lowStockThreshold : option Z
}.

(** [{ $inc: { stock: d } }] *)
Definition incStock (d : Z) (p : t) : t :=
  mk (_id p) (name p) (brand p) (quantityValue p) (quantityUnit p)
     (basePrice p) (discountPrice p) (subscriptionPrice p)
     (unitPerSubscription p) (stock p + d) (lowStockThreshold p).
End Product.

Inductive PricingMode := retail | wholesale.

(** The object returned by [calculateOptimalPricing], spread into each
    entry of [computedItems] next to its product. *)
Module Pricing.
Record t := mk {
  mode : PricingMode;
  unitsBought : Z;
  bundlesBought : Z;
  totalPrice : number;
  unitPrice : number
}.
End Pricing.

Module ComputedItem.
Record t := mk { product : Product.t; pricing : Pricing.t }.
End ComputedItem.

(** An entry of [req.body.items]. *)
Module CartItem.
Record t := mk { id : string; count : Z }.
End CartItem.

(** ** Pricing engine (inside [createOrder]) *)

Definition THRESHOLD : number := ofZ 2500.

#[global] Arguments THRESHOLD : simpl never.

Definition retailUnit (p : Product.t) : number :=
  nullish (Product.discountPrice p) (Product.basePrice p).

Definition retailPricing (p : Product.t) (units : Z) : Pricing.t :=
  Pricing.mk retail units 0 (num_mul (retailUnit p) (ofZ units)) (retailUnit p).

Definition calculateOptimalPricing (isSubscriber : bool)
    (p : Product.t) (unitsRequested : Z) : Pricing.t :=
  if negb isSubscriber then retailPricing p unitsRequested
  else
    let retailTotal := num_mul (retailUnit p) (ofZ unitsRequested) in
    match Product.subscriptionPrice p, Product.unitPerSubscription p with
    | Some subscriptionPrice, Some unitPerSubscription =>
        if truthyN subscriptionPrice && truthyZ unitPerSubscription then
          let bundleCount := unitsRequested / unitPerSubscription in
          let remaining := Z.rem unitsRequested unitPerSubscription in
          if 0 <? bundleCount then
            let wholesaleTotal :=
              num_add (num_mul (ofZ bundleCount) subscriptionPrice)
                      (num_mul (ofZ remaining) (retailUnit p)) in
            if num_ltb wholesaleTotal retailTotal then
              Pricing.mk wholesale unitsRequested bundleCount wholesaleTotal
                         (num_div wholesaleTotal (ofZ unitsRequested))
            else retailPricing p unitsRequested
          else retailPricing p unitsRequested
        else retailPricing p unitsRequested
    | _, _ => retailPricing p unitsRequested
    end.

(** The reasons for which the first loop over the cart answers 400. *)
Inductive CartError :=
| ProductNotFound (id : string)
| InsufficientStockFor (name : string).

(** [for (const item of items) { ... }]: the tentative, wholesale-aware
    pass, threading [computedItems] and [cartTotal]. *)
Fixpoint tentativePass (isSubscriber : bool) (productMap : gmap string Product.t)
    (items : list CartItem.t) (computedItems : list ComputedItem.t) (cartTotal : number)
    : CartError + (list ComputedItem.t * number) :=
  match items with
  | [] => inr (computedItems, cartTotal)
  | item :: rest =>
      match productMap !! CartItem.id item with
      | None => inl (ProductNotFound (CartItem.id item))
      | Some p =>
          if Product.stock p <? CartItem.count item
          then inl (InsufficientStockFor (Product.name p))
          else
            let pricing := calculateOptimalPricing isSubscriber p (CartItem.count item) in
            tentativePass isSubscriber productMap rest
              (computedItems ++ [ComputedItem.mk p pricing])
              (num_add cartTotal (Pricing.totalPrice pricing))
      end
  end.

(** [items.map(item => ...)] of the retail-only pass; [None] is the
    [TypeError] of reading a property of an absent product. *)
Fixpoint retailPass (productMap : gmap string Product.t)
    (items : list CartItem.t) (cartTotal : number)
    : option (list ComputedItem.t * number) :=
  match items with
  | [] => Some ([], cartTotal)
  | item :: rest =>
      match productMap !! CartItem.id item with
      | None => None
      | Some p =>
          let totalPrice := num_mul (retailUnit p) (ofZ (CartItem.count item)) in
          match retailPass productMap rest (num_add cartTotal totalPrice) with
          | None => None
          | Some (cis, total) =>
              Some (ComputedItem.mk p
                      (Pricing.mk retail (CartItem.count item) 0 totalPrice (retailUnit p))
                    :: cis, total)
          end
      end
  end.

Definition wholesaleEligibleOf (isSubscriber : bool) (cartTotal : number) : bool :=
  isSubscriber && num_leb THRESHOLD cartTotal.

(** The outcome of pricing a cart: the 400 of the first loop, the
    [TypeError] of the second, or the priced lines with the final total
    and the [wholesaleEligible] flag. *)
Inductive Priced :=
| PricedError (e : CartError)
| PricedThrow
| PricedOk (computedItems : list ComputedItem.t) (cartTotal : number)
           (wholesaleEligible : bool).

Definition priceCart (isSubscriber : bool) (productMap : gmap string Product.t)
    (items : list CartItem.t) : Priced :=
  match tentativePass isSubscriber productMap items [] zero with
  | inl e => PricedError e
  | inr (computedItems, cartTotal) =>
      let wholesaleEligible := wholesaleEligibleOf isSubscriber cartTotal in
      if negb wholesaleEligible then
        match retailPass productMap items zero with
        | None => PricedThrow
        | Some (computedItems', cartTotal') => PricedOk computedItems' cartTotal' wholesaleEligible
        end
      else PricedOk computedItems cartTotal wholesaleEligible
  end.

(** ** Orders *)

Inductive Status :=
| pending | accepted | in_progress | awaitconfirmation | delivered | cancelled.

Inductive DeliveryStatus :=
| AssigningPartner | PartnerAssigned | OnTheWay | Delivered | Cancelled.

Inductive PaymentStatus :=
| pay_pending | pay_verified | pay_failed | pay_refunded | pay_completed.

Definition Status_eqb (a b : Status) : bool :=
  match a, b with
  | pending, pending | accepted, accepted | in_progress, in_progress
  | awaitconfirmation, awaitconfirmation | delivered, delivered
  | cancelled, cancelled => true
  | _, _ => false
  end.

(** The strings of the [status] enum of the order schema. *)
Definition statusName (s : Status) : string :=
  match s with
  | pending => "pending"
  | accepted => "accepted"
  | in_progress => "in-progress"
  | awaitconfirmation => "awaitconfirmation"
  | delivered => "delivered"
  | cancelled => "cancelled"
  end.

Definition parseStatus (s : string) : option Status :=
  List.find (fun st => String.eqb (statusName st) s)
    [pending; accepted; in_progress; awaitconfirmation; delivered; cancelled].

(** A location object, as stored under [deliveryLocation],
    [pickupLocation] and [deliveryPersonLocation] and as sent in request
    bodies. *)
Module Location.
Record t := mk {
  latitude : option number;
  longitude : option number;
  address : option string;
  timestamp : option Z;
  accuracy : option number;
  speed : option number;
  heading : option number;
  isFinalLocation : bool;
  deliveredAt : option Z
}.

Definition plain (lat lon : option number) (addr : option string) : t :=
  mk lat lon addr None None None None false None.
End Location.

(** A distance or a duration of a route, as the directions service gives
    it: [{ text, value }]. *)
Module Measure.
Record t := mk { text : option string; value : option number }.
End Measure.

Module RouteData.
Record t := mk {
  coordinates : list (number * number);
  distance : Measure.t;
  duration : Measure.t;
  lastUpdated : option Z
}.
End RouteData.

Module PaymentDetails.
Record t := mk {
  method : string;
  amount : number;
  currency : string;
  verifiedAt : Z
}.
End PaymentDetails.

Module OrderItem.
Record t := mk {
  product : string;
  name : string;
  brand : option string;
  quantityValue : string;
  quantityUnit : string;
  mode : PricingMode;
  unitsBought : Z;
  unitPrice : number;
  totalPrice : number;
  bundlesBought : Z;
  basePrice : number;
  discountPrice : option number;
  subscriptionPrice : option number;
  unitPerSubscription : option Z
}.
End OrderItem.

(** The order document.  [cancellationReason], [cancelledBy] and
    [cancelledAt], which [cancelOrder] assigns, are not paths of the
    schema and are therefore never stored. *)
Module Order.
Record t := mk {
  _id : string;
  orderId : option string;
  customer : string;
  deliveryPartner : option string;
  branch : string;
  items : list OrderItem.t;
  deliveryLocation : Location.t;
  pickupLocation : Location.t;
  deliveryPersonLocation : Location.t;
  routeData : option RouteData.t;
  status : Status;
  deliveryStatus : DeliveryStatus;
  totalPrice : number;
  deliveryFee : number;
  paymentStatus : PaymentStatus;
  paymentDetails : option PaymentDetails.t;
  createdAt : Z;
  updatedAt : Z
}.

Definition set_orderId (v : option string) (o : t) : t :=
  mk (_id o) v (customer o) (deliveryPartner o) (branch o) (items o)
     (deliveryLocation o) (pickupLocation o) (deliveryPersonLocation o)
     (routeData o) (status o) (deliveryStatus o) (totalPrice o)
     (deliveryFee o) (paymentStatus o) (paymentDetails o) (createdAt o)
     (updatedAt o).

Definition set_deliveryPartner (v : option string) (o : t) : t :=
  mk (_id o) (orderId o) (customer o) v (branch o) (items o)
     (deliveryLocation o) (pickupLocation o) (deliveryPersonLocation o)
     (routeData o) (status o) (deliveryStatus o) (totalPrice o)
     (deliveryFee o) (paymentStatus o) (paymentDetails o) (createdAt o)
     (updatedAt o).

Definition set_deliveryPersonLocation (v : Location.t) (o : t) : t :=
  mk (_id o) (orderId o) (customer o) (deliveryPartner o) (branch o) (items o)
     (deliveryLocation o) (pickupLocation o) v
     (routeData o) (status o) (deliveryStatus o) (totalPrice o)
     (deliveryFee o) (paymentStatus o) (paymentDetails o) (createdAt o)
     (updatedAt o).

Definition set_status (v : Status) (o : t) : t :=
  mk (_id o) (orderId o) (customer o) (deliveryPartner o) (branch o) (items o)
     (deliveryLocation o) (pickupLocation o) (deliveryPersonLocation o)
     (routeData o) v (deliveryStatus o) (totalPrice o)
     (deliveryFee o) (paymentStatus o) (paymentDetails o) (createdAt o)
     (updatedAt o).

Definition set_deliveryStatus (v : DeliveryStatus) (o : t) : t :=
  mk (_id o) (orderId o) (customer o) (deliveryPartner o) (branch o) (items o)
     (deliveryLocation o) (pickupLocation o) (deliveryPersonLocation o)
     (routeData o) (status o) v (totalPrice o)
     (deliveryFee o) (paymentStatus o) (paymentDetails o) (createdAt o)
     (updatedAt o).

Definition set_payment (s : PaymentStatus) (d : option PaymentDetails.t) (o : t) : t :=
  mk (_id o) (orderId o) (customer o) (deliveryPartner o) (branch o) (items o)
     (deliveryLocation o) (pickupLocation o) (deliveryPersonLocation o)
     (routeData o) (status o) (deliveryStatus o) (totalPrice o)
     (deliveryFee o) s d (createdAt o)
     (updatedAt o).

Definition set_updatedAt (v : Z) (o : t) : t :=
  mk (_id o) (orderId o) (customer o) (deliveryPartner o) (branch o) (items o)
     (deliveryLocation o) (pickupLocation o) (deliveryPersonLocation o)
     (routeData o) (status o) (deliveryStatus o) (totalPrice o)
     (deliveryFee o) (paymentStatus o) (paymentDetails o) (createdAt o)
     v.
End Order.

(** ** The other collections *)

Module Customer.
Record t := mk { isSubscription : bool }.
End Customer.

Module DeliveryPartner.
Record t := mk { branch : option string }.
End DeliveryPartner.

(** The branch model is not among the sources; the controller reads
    [location.latitude], [location.longitude] and [address] from it. *)
Module Branch.
Record t := mk {
  location : option (option number * option number);
  address : option string
}.
End Branch.

Module Address.
Record t := mk {
  _id : string;
  userId : string;
  addressLine1 : string;
  addressLine2 : option string;
  city : string;
  state : string;
  zipCode : string;
  isDefault : bool;
  latitude : option number;
  longitude : option number
}.
End Address.

(** ** The world: database and socket server *)

Module Db.
Record t := mk {
  customers : gmap string Customer.t;
  deliveryPartners : gmap string DeliveryPartner.t;
  branches : gmap string Branch.t;
  addresses : list Address.t;
  products : gmap string Product.t;
  orders : gmap string Order.t;
  sequenceValue : Z
}.

Definition set_products (v : gmap string Product.t) (d : t) : t :=
  mk (customers d) (deliveryPartners d) (branches d) (addresses d) v
     (orders d) (sequenceValue d).

Definition set_orders (v : gmap string Order.t) (d : t) : t :=
  mk (customers d) (deliveryPartners d) (branches d) (addresses d)
     (products d) v (sequenceValue d).

Definition set_sequenceValue (v : Z) (d : t) : t :=
  mk (customers d) (deliveryPartners d) (branches d) (addresses d)
     (products d) (orders d) v.
End Db.

(** What an event carries. *)
Inductive Payload :=
| POrder (o : Order.t)
| POrderId (id : string)
| PLocation (orderId : string) (location : Location.t)
| PCompleted (orderId : string) (status : Status)
| PCancelled (orderId : string) (orderNumber : option string)
             (reason cancelledBy : option string)
| PPickedUp (orderId : string) (deliveryPartnerId : option string)
            (location : Location.t)
| PLocationUpdate (orderId : string) (location : Location.t)
                  (routeData : option RouteData.t).

(** One [io.to(room).emit(event, payload)], with the sockets that were in
    the room when it was emitted. *)
Module Emit.
Record t := mk {
  room : string;
  event : string;
  payload : Payload;
  receivers : gset string
}.
End Emit.

Module Io.
Record t := mk {
  rooms : gmap string (gset string);
  emitted : list Emit.t
}.

Definition members (room : string) (io : t) : gset string :=
  default ∅ (rooms io !! room).

(** [io.to(room).emit(event, payload)] *)
Definition emit (room event : string) (payload : Payload) (io : t) : t :=
  mk (rooms io) (emitted io ++ [Emit.mk room event payload (members room io)]).

(** [io.socketsLeave(room)]: every socket leaves [room]. *)
Definition socketsLeave (room : string) (io : t) : t :=
  mk (delete room (rooms io)) (emitted io).

(** [socket.join(room)] *)
Definition join (socket room : string) (io : t) : t :=
  mk (<[room := {[socket]} ∪ members room io]> (rooms io)) (emitted io).
End Io.

Module World.
Record t := mk { db : Db.t; io : Io.t }.
End World.

(** The clock and the [ObjectId] generator. *)
Module Env.
Record t := mk { now : Z; freshId : string }.
End Env.

(** ** Responses *)

Inductive Body :=
| BMessage
| BOrder (o : Order.t)
| BPreview (items : list OrderItem.t) (totalPrice deliveryFee : number)
           (wholesaleEligible : bool) (paymentMode : string)
| BLocation (o : Order.t) (routeData : option RouteData.t).

Module Response.
Record t := mk { status : Z; message : string; body : Body }.
End Response.

Definition internalServerError : Response.t :=
  Response.mk 500 "Internal server error" BMessage.

(** ** Saving an order *)

Definition requiredS (s : option string) : bool :=
  match s with Some v => truthyS v | None => false end.

Definition requiredPlace (l : Location.t) : bool :=
  bool_decide (is_Some (Location.latitude l))
  && bool_decide (is_Some (Location.longitude l))
  && requiredS (Location.address l).

(** Schema validation of the paths that the controller can leave empty. *)
Definition validate (o : Order.t) : bool :=
  requiredPlace (Order.deliveryLocation o)
  && requiredPlace (Order.pickupLocation o)
  && requiredS (Location.address (Order.deliveryPersonLocation o))
  && forallb (fun i => truthyS (OrderItem.name i)) (Order.items o).

(** [s.padStart(5, '0')] *)
Definition padStart5 (s : string) : string :=
  String.concat "" (repeat "0" (5 - String.length s)%nat) ++ s.

(** [generateOrderId] after the counter has been incremented to [n]. *)
Definition formatOrderId (n : Z) : string := "ORD-" ++ padStart5 (pretty n).

(** [order.save()] of a fetched order: validation, then the [pre("save")]
    hook stamps [updatedAt], then the document is written.  [None] is the
    [ValidationError]. *)
Definition saveOrder (env : Env.t) (o : Order.t) (d : Db.t) : option (Order.t * Db.t) :=
  if validate o then
    let o' := Order.set_updatedAt (Env.now env) o in
    Some (o', Db.set_orders (<[Order._id o' := o']> (Db.orders d)) d)
  else None.

(** A Number path does not take [NaN]: the cast fails when the document
    is built and [save] reports it as a [ValidationError]. *)
Definition castsN (x : number) : bool := negb (isNaN x).

Definition castsON (x : option number) : bool :=
  match x with Some n => castsN n | None => true end.

Definition castsPlace (l : Location.t) : bool :=
  castsON (Location.latitude l) && castsON (Location.longitude l).

(** The Number paths that [createOrder] fills in a new order. *)
Definition numbersCast (o : Order.t) : bool :=
  castsN (Order.totalPrice o)
  && castsN (Order.deliveryFee o)
  && forallb (fun i => castsN (OrderItem.unitPrice i)
                       && castsN (OrderItem.totalPrice i)
                       && castsN (OrderItem.basePrice i)
                       && castsON (OrderItem.discountPrice i)
                       && castsON (OrderItem.subscriptionPrice i))
             (Order.items o)
  && castsPlace (Order.deliveryLocation o)
  && castsPlace (Order.pickupLocation o)
  && castsPlace (Order.deliveryPersonLocation o)
  && castsON (PaymentDetails.amount <$> Order.paymentDetails o).

(** [newOrder.save()]: as above for a document just built, and the hook
    draws the next order code. *)
Definition saveNewOrder (env : Env.t) (o : Order.t) (d : Db.t) : option (Order.t * Db.t) :=
  if validate o && numbersCast o then
    let n := Db.sequenceValue d + 1 in
    let o' := Order.set_updatedAt (Env.now env)
                (Order.set_orderId (Some (formatOrderId n)) o) in
    Some (o', Db.set_orders (<[Order._id o' := o']> (Db.orders d))
                (Db.set_sequenceValue n d))
  else None.

(** [Product.updateOne({ _id: id }, { $inc: { stock: d } })] *)
Definition incProductStock (id : string) (d : Z)
    (products : gmap string Product.t) : gmap string Product.t :=
  alter (Product.incStock d) id products.

(** ** [createOrder] *)

Module CreateOrderReq.
Record t := mk {
  userId : string;
  items : list CartItem.t;
  branch : string;
  addressId : option string;
  paymentMode : option string;
  deliveryFee : option number;
  preview : bool
}.
End CreateOrderReq.

(** [Address.findById(addressId)] when an address id is sent and, when
    none is sent or none is found, the default address of the customer.
    The outer [None] is the [CastError] of an address id that is not an
    [ObjectId]. *)
Definition findAddress (customerId : string) (addressId : option string)
    (addresses : list Address.t) : option (option Address.t) :=
  let byDefault :=
    List.find (fun x => String.eqb (Address.userId x) customerId && Address.isDefault x)
              addresses in
  match addressId with
  | Some a =>
      if truthyS a then
        match castObjectId a with
        | None => None
        | Some addressId =>
            match List.find (fun x => String.eqb (Address._id x) addressId) addresses with
            | Some addressData => Some (Some addressData)
            | None => Some byDefault
            end
        end
      else Some byDefault
  | None => Some byDefault
  end.

(** [[...].filter(Boolean).join(', ')] *)
Definition deliveryAddressOf (a : Address.t) : string :=
  String.concat ", "
    (List.filter truthyS
       [Address.addressLine1 a; nullish (Address.addressLine2 a) "";
        Address.city a; Address.state a; Address.zipCode a]).

Definition orderItemOf (ci : ComputedItem.t) : OrderItem.t :=
  let p := ComputedItem.product ci in
  let pr := ComputedItem.pricing ci in
  OrderItem.mk (Product._id p) (Product.name p) (Product.brand p)
    (Product.quantityValue p) (Product.quantityUnit p)
    (Pricing.mode pr) (Pricing.unitsBought pr)
    (toFixed2 (Pricing.unitPrice pr)) (toFixed2 (Pricing.totalPrice pr))
    (Pricing.bundlesBought pr)
    (Product.basePrice p) (Product.discountPrice p)
    (Product.subscriptionPrice p) (Product.unitPerSubscription p).

(** The loop under "Update stock for actual orders only". *)
Definition decrementStock (orderItems : list OrderItem.t)
    (products : gmap string Product.t) : gmap string Product.t :=
  fold_left
    (fun ps oi => incProductStock (OrderItem.product oi) (- OrderItem.unitsBought oi) ps)
    orderItems products.

Definition isCOD (paymentMode : option string) : bool :=
  match paymentMode with Some m => String.eqb m "COD" | None => false end.

Definition cartErrorResponse (e : CartError) : Response.t :=
  match e with
  | ProductNotFound id => Response.mk 400 ("Product not found: " ++ id) BMessage
  | InsufficientStockFor name => Response.mk 400 ("Insufficient stock for " ++ name) BMessage
  end.

(** [Product.find({ _id: { $in: productIds } })] casts every id of the
    cart and raises [CastError] when one of them is not an [ObjectId]. *)
Definition productIdsCast (items : list CartItem.t) : bool :=
  forallb (fun item => bool_decide (is_Some (castObjectId (CartItem.id item)))) items.

Definition createOrder (env : Env.t) (req : CreateOrderReq.t) (w : World.t)
    : Response.t * World.t :=
  let d := World.db w in
  let userId := CreateOrderReq.userId req in
  let branch := CreateOrderReq.branch req in
  match castObjectId userId with
  | None => (internalServerError, w)
  | Some customerId =>
  match castObjectId branch with
  | None => (internalServerError, w)
  | Some branchId =>
  match Db.customers d !! customerId with
  | None => (Response.mk 404 "Customer not found" BMessage, w)
  | Some customerData =>
  match Db.branches d !! branchId with
  | None => (Response.mk 404 "Branch not found" BMessage, w)
  | Some branchData =>
  match findAddress customerId (CreateOrderReq.addressId req) (Db.addresses d) with
  | None => (internalServerError, w)
  | Some None => (Response.mk 404 "Delivery address not found" BMessage, w)
  | Some (Some addressData) =>
  let deliveryAddress := deliveryAddressOf addressData in
  let latitude := nullish (Address.latitude addressData) zero in
  let longitude := nullish (Address.longitude addressData) zero in
  if negb (productIdsCast (CreateOrderReq.items req)) then (internalServerError, w)
  else
  let isSubscriber := Customer.isSubscription customerData in
  match priceCart isSubscriber (Db.products d) (CreateOrderReq.items req) with
  | PricedError e => (cartErrorResponse e, w)
  | PricedThrow => (internalServerError, w)
  | PricedOk computedItems cartTotal wholesaleEligible =>
  let orderItems := List.map orderItemOf computedItems in
  let deliveryFee :=
    match CreateOrderReq.deliveryFee req with
    | Some f => f
    | None => if num_ltb cartTotal (ofZ 1000) then ofZ 49 else ofZ 0
    end in
  if CreateOrderReq.preview req then
    (Response.mk 200 "Order preview calculated successfully"
       (BPreview orderItems (toFixed2 cartTotal) deliveryFee wholesaleEligible
                 (match CreateOrderReq.paymentMode req with
                  | Some m => if truthyS m then m else "online"
                  | None => "online"
                  end)), w)
  else if isCOD (CreateOrderReq.paymentMode req) && negb wholesaleEligible then
    (Response.mk 400 "COD not eligible. Requires subscription and cart total ≥ ₹2500"
       BMessage, w)
  else
    let d1 := Db.set_products (decrementStock orderItems (Db.products d)) d in
    let w1 := World.mk d1 (World.io w) in
    match Branch.location branchData with
    | None => (internalServerError, w1)
    | Some (branchLat, branchLon) =>
    let newOrder :=
      Order.mk (Env.freshId env) None customerId None branchId orderItems
        (Location.plain (Some latitude) (Some longitude) (Some deliveryAddress))
        (Location.plain branchLat branchLon
           (Some (match Branch.address branchData with
                  | Some a => if truthyS a then a else "Not provided"
                  | None => "Not provided"
                  end)))
        (Location.plain (Some zero) (Some zero) (Some "Not assigned"))
        None pending AssigningPartner (toFixed2 cartTotal) deliveryFee
        pay_pending None (Env.now env) (Env.now env) in
    let newOrder :=
      if isCOD (CreateOrderReq.paymentMode req) then
        Order.set_payment pay_completed
          (Some (PaymentDetails.mk "COD" (num_add (toFixed2 cartTotal) deliveryFee) "INR"
                                   (Env.now env)))
          newOrder
      else newOrder in
    match saveNewOrder env newOrder d1 with
    | None => (internalServerError, w1)
    | Some (savedOrder, d2) =>
        (Response.mk 201 "Order created successfully" (BOrder savedOrder),
         World.mk d2
           (Io.emit ("branch-" ++ branch) "newOrderAvailable" (POrder savedOrder)
                    (World.io w)))
    end
    end
  end end end end end end.

(** ** Handlers of the delivery partner and of the customer *)

Definition truthyOS (o : option string) : bool :=
  match o with Some s => truthyS s | None => false end.

(** [x || d] on an optional number *)
Definition orN (x : option number) (d : number) : number :=
  match x with Some n => if truthyN n then n else d | None => d end.

(** [x || d] on an optional string *)
Definition orS (x : option string) (d : string) : string :=
  match x with Some s => if truthyS s then s else d | None => d end.

Definition orderRoom (orderId : string) : string := "order-" ++ orderId.
Definition branchRoom (branch : string) : string := "branch-" ++ branch.

Module ConfirmOrderReq.
Record t := mk {
  orderId : string;
  user : JsId;
  deliveryPersonLocation : option Location.t
}.
End ConfirmOrderReq.

Definition confirmOrder (env : Env.t) (req : ConfirmOrderReq.t) (w : World.t)
    : Response.t * World.t :=
  let d := World.db w in
  let orderId := ConfirmOrderReq.orderId req in
  let userId := ConfirmOrderReq.user req in
  match Db.deliveryPartners d !! toString userId with
  | None => (Response.mk 404 "Delivery Partner not found" BMessage, w)
  | Some _ =>
  match Db.orders d !! orderId with
  | None => (Response.mk 404 "Order not found" BMessage, w)
  | Some order =>
  if negb (Status_eqb (Order.status order) accepted) then
    (Response.mk 400 "Order cannot be confirmed" BMessage, w)
  else
    let order := Order.set_status in_progress order in
    let order := Order.set_deliveryStatus PartnerAssigned order in
    let order := Order.set_deliveryPartner (Some (toString userId)) order in
    match ConfirmOrderReq.deliveryPersonLocation req with
    | None => (internalServerError, w)
    | Some loc =>
    let order :=
      Order.set_deliveryPersonLocation
        (Location.plain (Location.latitude loc) (Location.longitude loc)
                        (Some (orS (Location.address loc) "Not provided")))
        order in
    let io1 := Io.emit orderId "orderConfirmed" (POrder order) (World.io w) in
    let io2 := Io.emit (branchRoom (Order.branch order)) "orderAcceptedByOther"
                       (POrderId (Order._id order)) io1 in
    match saveOrder env order d with
    | None => (internalServerError, World.mk d io2)
    | Some (order, d') =>
        (Response.mk 200 "Order confirmed successfully" (BOrder order),
         World.mk d' io2)
    end
    end
  end end.

Module UpdateOrderStatusReq.
Record t := mk {
  orderId : string;
  user : JsId;
  status : string;
  deliveryPersonLocation : option Location.t
}.
End UpdateOrderStatusReq.

(** The table [validTransitions] of [updateOrderStatus]. *)
Definition validTransitions (s : Status) : option (list string) :=
  match s with
  | accepted => Some ["in-progress"]
  | in_progress => Some ["awaitconfirmation"]
  | awaitconfirmation => Some ["delivered"]
  | _ => None
  end.

Definition includes (l : list string) (s : string) : bool :=
  existsb (String.eqb s) l.

(** The [switch (status)] that derives [deliveryStatus]. *)
Definition deriveDeliveryStatus (status : Status) (o : Order.t) : Order.t :=
  match status with
  | in_progress => Order.set_deliveryStatus OnTheWay o
  | awaitconfirmation => Order.set_deliveryStatus Delivered o
  | delivered => Order.set_deliveryStatus Delivered o
  | cancelled => Order.set_deliveryStatus Cancelled o
  | _ => o
  end.

(** The events that [updateOrderStatus] emits once the order is saved. *)
Definition statusEvents (orderId : string) (order : Order.t)
    (deliveryPersonLocation : option Location.t) (io : Io.t) : Io.t :=
  let io := Io.emit orderId "orderStatusUpdated" (POrder order) io in
  let io :=
    match deliveryPersonLocation with
    | Some _ =>
        Io.emit orderId "orderLocationUpdated"
          (PLocation (Order._id order) (Order.deliveryPersonLocation order)) io
    | None => io
    end in
  match Order.status order with
  | awaitconfirmation =>
      Io.emit (Order.customer order) "awaitingCustomerConfirmation" (POrder order) io
  | in_progress =>
      Io.emit (Order.customer order) "orderInProgress" (POrder order) io
  | delivered =>
      let io := Io.emit orderId "orderCompleted" (PCompleted (Order._id order) delivered) io in
      Io.socketsLeave (orderRoom orderId) io
  | cancelled =>
      let gone := PCancelled (Order._id order) (Order.orderId order) None None in
      let io := Io.emit (Order.customer order) "orderCancelled" gone io in
      let io :=
        match Order.deliveryPartner order with
        | Some dp => Io.emit dp "orderCancelled" gone io
        | None => io
        end in
      let io := Io.emit orderId "orderCompleted" (PCompleted (Order._id order) cancelled) io in
      Io.socketsLeave (orderRoom orderId) io
  | _ => io
  end.

Definition updateOrderStatus (env : Env.t) (req : UpdateOrderStatusReq.t) (w : World.t)
    : Response.t * World.t :=
  let d := World.db w in
  let orderId := UpdateOrderStatusReq.orderId req in
  let status := UpdateOrderStatusReq.status req in
  let userId := UpdateOrderStatusReq.user req in
  match Db.deliveryPartners d !! toString userId with
  | None => (Response.mk 404 "Delivery Partner not found" BMessage, w)
  | Some _ =>
  match Db.orders d !! orderId with
  | None => (Response.mk 404 "Order not found" BMessage, w)
  | Some order =>
  if includes ["delivered"; "cancelled"] (statusName (Order.status order)) then
    (Response.mk 400 "Order cannot be updated" BMessage, w)
  else
  match Order.deliveryPartner order with
  | None => (internalServerError, w)
  | Some dp =>
  if strict_neq dp userId then
    (Response.mk 403 "You are not authorized to update this order" BMessage, w)
  else
  if match validTransitions (Order.status order) with
     | Some allowed => negb (includes allowed status)
     | None => false
     end
  then
    (Response.mk 400
       ("Invalid status transition from " ++ statusName (Order.status order)
        ++ " to " ++ status) BMessage, w)
  else
  match parseStatus status with
  | None => (internalServerError, w)
  | Some newStatus =>
    let order := Order.set_status newStatus order in
    let order := deriveDeliveryStatus newStatus order in
    let order :=
      match UpdateOrderStatusReq.deliveryPersonLocation req with
      | Some loc => Order.set_deliveryPersonLocation loc order
      | None => order
      end in
    let order := Order.set_updatedAt (Env.now env) order in
    match saveOrder env order d with
    | None => (internalServerError, w)
    | Some (order, d') =>
        (Response.mk 200 "Order status updated successfully" (BOrder order),
         World.mk d'
           (statusEvents orderId order
              (UpdateOrderStatusReq.deliveryPersonLocation req) (World.io w)))
    end
  end
  end
  end end.

Module ConfirmDeliveryReceiptReq.
Record t := mk { orderId : string; user : JsId }.
End ConfirmDeliveryReceiptReq.

Definition confirmDeliveryReceipt (env : Env.t) (req : ConfirmDeliveryReceiptReq.t)
    (w : World.t) : Response.t * World.t :=
  let d := World.db w in
  let orderId := ConfirmDeliveryReceiptReq.orderId req in
  let userId := ConfirmDeliveryReceiptReq.user req in
  match Db.orders d !! orderId with
  | None => (Response.mk 404 "Order not found" BMessage, w)
  | Some order =>
  if negb (String.eqb (Order.customer order) (toString userId)) then
    (Response.mk 403 "You are not authorized to confirm this delivery." BMessage, w)
  else if negb (Status_eqb (Order.status order) awaitconfirmation) then
    (Response.mk 400 "Order is not awaiting customer confirmation." BMessage, w)
  else
    let order := Order.set_status delivered order in
    match saveOrder env order d with
    | None => (internalServerError, w)
    | Some (order, d') =>
        let io1 := Io.emit (Order.customer order) "deliveryConfirmed" (POrder order)
                           (World.io w) in
        match Order.deliveryPartner order with
        | None => (internalServerError, World.mk d' io1)
        | Some dp =>
            let io2 := Io.emit dp "orderStatusUpdated" (POrder order) io1 in
            let io3 := Io.emit orderId "orderCompleted"
                               (PCompleted (Order._id order) delivered) io2 in
            let io4 := Io.socketsLeave (orderRoom orderId) io3 in
            (Response.mk 200 "Delivery confirmed successfully" (BOrder order),
             World.mk d' io4)
        end
    end
  end.

(** ** [acceptOrder] *)

Module AcceptOrderReq.
Record t := mk { orderId : string; deliveryPartnerId : option string }.
End AcceptOrderReq.

(** The loop under "NOW REDUCE STOCK WHEN ORDER IS ACTUALLY ACCEPTED":
    each line is re-checked and decremented in turn; the first line that
    fails answers 400 at once.  The result carries the products as the
    loop left them. *)
Fixpoint reduceStock (items : list OrderItem.t) (products : gmap string Product.t)
    : option Response.t * gmap string Product.t :=
  match items with
  | [] => (None, products)
  | item :: rest =>
      if truthyZ (OrderItem.unitsBought item) then
        match products !! OrderItem.product item with
        | None =>
            (Some (Response.mk 400 ("Product not found: " ++ OrderItem.name item) BMessage),
             products)
        | Some product =>
            if Product.stock product <? OrderItem.unitsBought item then
              (Some (Response.mk 400
                       ("Insufficient stock for " ++ OrderItem.name item
                        ++ ". Available: " ++ pretty (Product.stock product)
                        ++ ", Required: " ++ pretty (OrderItem.unitsBought item))
                       BMessage),
               products)
            else
              reduceStock rest
                (incProductStock (OrderItem.product item)
                                 (- OrderItem.unitsBought item) products)
        end
      else reduceStock rest products
  end.

Definition acceptOrder (env : Env.t) (req : AcceptOrderReq.t) (w : World.t)
    : Response.t * World.t :=
  let d := World.db w in
  let orderId := AcceptOrderReq.orderId req in
  match AcceptOrderReq.deliveryPartnerId req with
  | None => (Response.mk 400 "Delivery partner ID is required" BMessage, w)
  | Some deliveryPartnerId =>
  if negb (truthyS deliveryPartnerId) then
    (Response.mk 400 "Delivery partner ID is required" BMessage, w)
  else
  match Db.orders d !! orderId with
  | None => (Response.mk 404 "Order not found" BMessage, w)
  | Some order =>
  if negb (Status_eqb (Order.status order) pending) then
    (Response.mk 400 "Order is not in pending status" BMessage, w)
  else
  match Db.deliveryPartners d !! deliveryPartnerId with
  | None => (Response.mk 404 "Delivery partner not found" BMessage, w)
  | Some deliveryPartner =>
  match DeliveryPartner.branch deliveryPartner with
  | None => (internalServerError, w)
  | Some partnerBranch =>
  if negb (String.eqb partnerBranch (Order.branch order)) then
    (Response.mk 403 "Delivery partner does not belong to this branch" BMessage, w)
  else
    match reduceStock (Order.items order) (Db.products d) with
    | (Some failure, products') =>
        (failure, World.mk (Db.set_products products' d) (World.io w))
    | (None, products') =>
        let d1 := Db.set_products products' d in
        let order := Order.set_status accepted order in
        let order := Order.set_deliveryPartner (Some deliveryPartnerId) order in
        let order := Order.set_deliveryStatus PartnerAssigned order in
        let order := Order.set_updatedAt (Env.now env) order in
        match saveOrder env order d1 with
        | None => (internalServerError, World.mk d1 (World.io w))
        | Some (order, d2) =>
            let io1 := Io.emit (branchRoom (Order.branch order)) "orderAcceptedByOther"
                               (POrderId orderId) (World.io w) in
            let io2 := Io.emit orderId "orderStatusUpdated" (POrder order) io1 in
            (Response.mk 200 "Order accepted successfully" (BOrder order),
             World.mk d2 io2)
        end
    end
  end end end end.

(** ** [pickupOrder], [markOrderAsDelivered], [updateDeliveryPartnerLocation] *)

Module PickupOrderReq.
Record t := mk {
  orderId : string;
  deliveryPartnerId : option string;
  pickupLocation : option Location.t
}.
End PickupOrderReq.

Definition pickupOrder (env : Env.t) (req : PickupOrderReq.t) (w : World.t)
    : Response.t * World.t :=
  let d := World.db w in
  let orderId := PickupOrderReq.orderId req in
  match PickupOrderReq.deliveryPartnerId req with
  | None => (Response.mk 400 "Delivery partner ID is required" BMessage, w)
  | Some deliveryPartnerId =>
  if negb (truthyS deliveryPartnerId) then
    (Response.mk 400 "Delivery partner ID is required" BMessage, w)
  else
  match Db.orders d !! orderId with
  | None => (Response.mk 404 "Order not found" BMessage, w)
  | Some order =>
  if negb (Status_eqb (Order.status order) accepted) then
    (Response.mk 400 "Order must be accepted before pickup" BMessage, w)
  else
  match Order.deliveryPartner order with
  | None => (internalServerError, w)
  | Some dp =>
  if negb (String.eqb dp deliveryPartnerId) then
    (Response.mk 403 "Only assigned delivery partner can pickup this order" BMessage, w)
  else
    let order := Order.set_status in_progress order in
    let order := Order.set_deliveryStatus OnTheWay order in
    let order :=
      Order.set_deliveryPersonLocation
        (match PickupOrderReq.pickupLocation req with
         | Some loc => loc
         | None =>
             Location.plain (Location.latitude (Order.pickupLocation order))
                            (Location.longitude (Order.pickupLocation order))
                            (Location.address (Order.pickupLocation order))
         end) order in
    let order := Order.set_updatedAt (Env.now env) order in
    match saveOrder env order d with
    | None => (internalServerError, w)
    | Some (order, d') =>
        let io1 := Io.emit orderId "orderStatusUpdated" (POrder order) (World.io w) in
        let io2 := Io.emit (Order.customer order) "orderPickedUp" (POrder order) io1 in
        let io3 := Io.emit (branchRoom (Order.branch order)) "orderPickedUp"
                     (PPickedUp (Order._id order) (Order.deliveryPartner order)
                                (Order.deliveryPersonLocation order)) io2 in
        (Response.mk 200 "Order picked up successfully" (BOrder order),
         World.mk d' io3)
    end
  end end end.

Module MarkDeliveredReq.
Record t := mk {
  orderId : string;
  deliveryPartnerId : option string;
  deliveryLocation : option Location.t
}.
End MarkDeliveredReq.

Definition markOrderAsDelivered (env : Env.t) (req : MarkDeliveredReq.t) (w : World.t)
    : Response.t * World.t :=
  let d := World.db w in
  let orderId := MarkDeliveredReq.orderId req in
  match MarkDeliveredReq.deliveryPartnerId req with
  | None => (Response.mk 400 "Delivery partner ID is required" BMessage, w)
  | Some deliveryPartnerId =>
  if negb (truthyS deliveryPartnerId) then
    (Response.mk 400 "Delivery partner ID is required" BMessage, w)
  else
  match Db.orders d !! orderId with
  | None => (Response.mk 404 "Order not found" BMessage, w)
  | Some order =>
  if negb (Status_eqb (Order.status order) in_progress) then
    (Response.mk 400 "Order must be in-progress before marking as delivered" BMessage, w)
  else
  match Order.deliveryPartner order with
  | None => (internalServerError, w)
  | Some dp =>
  if negb (String.eqb dp deliveryPartnerId) then
    (Response.mk 403 "Only assigned delivery partner can mark this order as delivered"
       BMessage, w)
  else
    let order := Order.set_status awaitconfirmation order in
    let order := Order.set_deliveryStatus Delivered order in
    let finalLocation :=
      match MarkDeliveredReq.deliveryLocation req with
      | Some loc => loc
      | None => Order.deliveryPersonLocation order
      end in
    let order :=
      Order.set_deliveryPersonLocation
        (Location.mk (Location.latitude finalLocation) (Location.longitude finalLocation)
           (Location.address finalLocation) (Some (Env.now env))
           (Location.accuracy finalLocation) (Location.speed finalLocation)
           (Location.heading finalLocation) true (Some (Env.now env)))
        order in
    let order := Order.set_updatedAt (Env.now env) order in
    match saveOrder env order d with
    | None => (internalServerError, w)
    | Some (order, d') =>
        let io1 := Io.emit orderId "orderStatusUpdated" (POrder order) (World.io w) in
        let io2 := Io.emit (Order.customer order) "awaitingCustomerConfirmation"
                           (POrder order) io1 in
        (Response.mk 200 "Order marked as delivered, waiting for customer confirmation"
           (BOrder order), World.mk d' io2)
    end
  end end end.

Module UpdateLocationReq.
Record t := mk {
  orderId : string;
  deliveryPartnerId : option string;
  location : option Location.t
}.
End UpdateLocationReq.

(** The body is taken without the optional [routeData].  The estimated
    time of arrival that this handler adds to its events and to its
    response is computed with trigonometric functions and is left out of
    the payloads. *)
Definition updateDeliveryPartnerLocation (env : Env.t) (req : UpdateLocationReq.t)
    (w : World.t) : Response.t * World.t :=
  let d := World.db w in
  let orderId := UpdateLocationReq.orderId req in
  match UpdateLocationReq.deliveryPartnerId req, UpdateLocationReq.location req with
  | Some deliveryPartnerId, Some location =>
  if negb (truthyS deliveryPartnerId) then
    (Response.mk 400 "Delivery partner ID and location are required" BMessage, w)
  else
  match Db.orders d !! orderId with
  | None => (Response.mk 404 "Order not found" BMessage, w)
  | Some order =>
  match Order.deliveryPartner order with
  | None => (internalServerError, w)
  | Some dp =>
  if negb (String.eqb dp deliveryPartnerId) then
    (Response.mk 403 "Only assigned delivery partner can update location" BMessage, w)
  else
    let order :=
      Order.set_deliveryPersonLocation
        (Location.mk (Location.latitude location) (Location.longitude location)
           (Location.address location) (Some (Env.now env))
           (Some (orN (Location.accuracy location) zero))
           (Some (orN (Location.speed location) zero))
           (Some (orN (Location.heading location) zero))
           (Location.isFinalLocation location) (Location.deliveredAt location))
        order in
    let order := Order.set_updatedAt (Env.now env) order in
    match saveOrder env order d with
    | None => (internalServerError, w)
    | Some (order, d') =>
        let update := PLocationUpdate (Order._id order) location (Order.routeData order) in
        let io1 := Io.emit (Order.customer order) "deliveryPartnerLocationUpdate" update
                           (World.io w) in
        let io2 := Io.emit (branchRoom (Order.branch order))
                           "deliveryPartnerLocationUpdate" update io1 in
        (Response.mk 200 "Location updated successfully"
           (BLocation order (Order.routeData order)), World.mk d' io2)
    end
  end end
  | _, _ => (Response.mk 400 "Delivery partner ID and location are required" BMessage, w)
  end.

(** ** [cancelOrder] *)

Module CancelOrderReq.
Record t := mk {
  orderId : string;
  reason : option string;
  cancelledBy : option string
}.
End CancelOrderReq.

(** The loop under "Restore stock for all items". *)
Definition restoreStock (items : list OrderItem.t)
    (products : gmap string Product.t) : gmap string Product.t :=
  fold_left
    (fun ps item =>
       if truthyZ (OrderItem.unitsBought item)
       then incProductStock (OrderItem.product item) (OrderItem.unitsBought item) ps
       else ps)
    items products.

Definition cancelOrder (env : Env.t) (req : CancelOrderReq.t) (w : World.t)
    : Response.t * World.t :=
  let d := World.db w in
  let orderId := CancelOrderReq.orderId req in
  let reason := CancelOrderReq.reason req in
  let cancelledBy := CancelOrderReq.cancelledBy req in
  if negb (truthyOS reason) then
    (Response.mk 400 "Cancellation reason is required" BMessage, w)
  else
  match Db.orders d !! orderId with
  | None => (Response.mk 404 "Order not found" BMessage, w)
  | Some order =>
  if includes ["delivered"; "cancelled"] (statusName (Order.status order)) then
    (Response.mk 400 "Order cannot be cancelled" BMessage, w)
  else
    let order := Order.set_status cancelled order in
    let order := Order.set_updatedAt (Env.now env) order in
    let d1 := Db.set_products (restoreStock (Order.items order) (Db.products d)) d in
    match saveOrder env order d1 with
    | None => (internalServerError, World.mk d1 (World.io w))
    | Some (order, d2) =>
        let gone := PCancelled (Order._id order) (Order.orderId order) reason cancelledBy in
        let io1 := Io.emit (Order.customer order) "orderCancelled" gone (World.io w) in
        let io2 :=
          match Order.deliveryPartner order with
          | Some dp => Io.emit dp "orderCancelled" gone io1
          | None => io1
          end in
        let io3 := Io.emit orderId "orderCompleted"
                           (PCompleted (Order._id order) cancelled) io2 in
        let io4 := Io.socketsLeave (orderRoom orderId) io3 in
        let io5 := Io.emit (branchRoom (Order.branch order)) "orderCancelled" gone io4 in
        (Response.mk 200 "Order cancelled successfully" (BOrder order),
         World.mk d2 io5)
    end
  end.

(** ** [deleteOrder] *)

(** The administrative removal: the stock of every line is given back,
    whatever the status of the order, and the document is removed.  No
    event is emitted and no room is left. *)
Definition deleteOrder (orderId : string) (w : World.t) : Response.t * World.t :=
  let d := World.db w in
  match Db.orders d !! orderId with
  | None => (Response.mk 404 "Order not found" BMessage, w)
  | Some order =>
      let d1 := Db.set_products (restoreStock (Order.items order) (Db.products d)) d in
      (Response.mk 200 "Order deleted successfully" BMessage,
       World.mk (Db.set_orders (delete orderId (Db.orders d1)) d1) (World.io w))
  end.

(** ** The order router *)

(** The routes of [routes/order.js] that write to the database, except
    the two route-geometry routes. *)
Inductive Request :=
| PostOrder (req : CreateOrderReq.t)
| PostConfirm (req : ConfirmOrderReq.t)
| PostAccept (req : AcceptOrderReq.t)
| PostPickup (req : PickupOrderReq.t)
| PostMarkDelivered (req : MarkDeliveredReq.t)
| PatchLocation (req : UpdateLocationReq.t)
| PatchStatus (req : UpdateOrderStatusReq.t)
| PatchConfirmReceipt (req : ConfirmDeliveryReceiptReq.t)
| PostCancel (req : CancelOrderReq.t)
| DeleteOrder (orderId : string).

Definition handle (env : Env.t) (request : Request) (w : World.t)
    : Response.t * World.t :=
  match request with
  | PostOrder req => createOrder env req w
  | PostConfirm req => confirmOrder env req w
  | PostAccept req => acceptOrder env req w
  | PostPickup req => pickupOrder env req w
  | PostMarkDelivered req => markOrderAsDelivered env req w
  | PatchLocation req => updateDeliveryPartnerLocation env req w
  | PatchStatus req => updateOrderStatus env req w
  | PatchConfirmReceipt req => confirmDeliveryReceipt env req w
  | PostCancel req => cancelOrder env req w
  | DeleteOrder orderId => deleteOrder orderId w
  end.

(** ** Queries *)

(** What a query answers.  [populate], which replaces the ids of the
    customer, branch, partner and products by a few fields of the
    documents they name, is left out: the orders are listed as stored. *)
Inductive QueryBody :=
| QMessage
| QOrders (orders : list Order.t) (total : nat)
| QHistory (orders : list Order.t)
| QTracking (status : Status) (location : Location.t).

Module QueryResponse.
Record t := mk { status : Z; message : string; body : QueryBody }.
End QueryResponse.

(** [.sort({ createdAt: -1 })] *)
Definition newerFirst (a b : Order.t) : Prop := Order.createdAt b <= Order.createdAt a.

#[global] Instance newerFirst_dec (a b : Order.t) : Decision (newerFirst a b) :=
  Z_le_dec (Order.createdAt b) (Order.createdAt a).

(** [Order.find(filter).sort({ createdAt: -1 })] *)
Definition findOrders (matches : Order.t -> bool) (d : Db.t) : list Order.t :=
  merge_sort newerFirst (List.filter matches (snd <$> map_to_list (Db.orders d))).

Definition statusIn (l : list Status) (o : Order.t) : bool :=
  existsb (Status_eqb (Order.status o)) l.

Definition partnerIs (deliveryPartnerId : string) (o : Order.t) : bool :=
  match Order.deliveryPartner o with
  | Some dp => String.eqb dp deliveryPartnerId
  | None => false
  end.

(** The filter of [getAvailableOrders]: pending orders of the branch with
    no delivery partner. *)
Definition availableFilter (branchId : string) (o : Order.t) : bool :=
  String.eqb (Order.branch o) branchId
  && Status_eqb (Order.status o) pending
  && bool_decide (Order.deliveryPartner o = None).

Definition getAvailableOrders (branchId : string) (w : World.t) : QueryResponse.t :=
  if negb (truthyS branchId) then
    QueryResponse.mk 400 "Branch ID is required" QMessage
  else
    let availableOrders := findOrders (availableFilter branchId) (World.db w) in
    QueryResponse.mk 200 "Available orders fetched successfully"
      (QOrders availableOrders (length availableOrders)).

Definition currentFilter (deliveryPartnerId : string) (o : Order.t) : bool :=
  partnerIs deliveryPartnerId o
  && statusIn [accepted; in_progress; awaitconfirmation] o.

Definition getCurrentOrders (deliveryPartnerId : string) (w : World.t) : QueryResponse.t :=
  if negb (truthyS deliveryPartnerId) then
    QueryResponse.mk 400 "Delivery partner ID is required" QMessage
  else
    let currentOrders := findOrders (currentFilter deliveryPartnerId) (World.db w) in
    QueryResponse.mk 200 "Current orders fetched successfully"
      (QOrders currentOrders (length currentOrders)).



(** [getMyOrderHistory]: every order of the calling customer. *)
Definition getMyOrderHistory (user : JsId) (w : World.t) : QueryResponse.t :=
  QueryResponse.mk 200 ""
    (QHistory (findOrders (fun o => String.eqb (Order.customer o) (toString user))
                          (World.db w))).

(** [getOrderTrackingInfo] *)
Definition getOrderTrackingInfo (orderId : string) (w : World.t) : QueryResponse.t :=
  match Db.orders (World.db w) !! orderId with
  | None => QueryResponse.mk 404 "Order not found" QMessage
  | Some order =>
      QueryResponse.mk 200 ""
        (QTracking (Order.status order) (Order.deliveryPersonLocation order))
  end.

(** ** The rate limiter of the authentication middleware *)

Module RateLimit.
Record t := mk { windowMs : Z; maxRequests : Z }.
End RateLimit.

(** [RATE_LIMITS.AUTH] and [RATE_LIMITS.GENERAL] *)
Definition RATE_LIMITS_AUTH : RateLimit.t := RateLimit.mk (60 * 1000) 20.
Definition RATE_LIMITS_GENERAL : RateLimit.t := RateLimit.mk (60 * 1000) 200.

(** [v.filter(timestamp => timestamp > windowStart)] *)
Definition laterThan (windowStart : Z) (v : list Z) : list Z :=
  List.filter (fun timestamp => windowStart <? timestamp) v.

(** The loop under "Cleanup old entries periodically". *)
Definition cleanupStore (windowStart : Z) (store : gmap string (list Z))
    : gmap string (list Z) :=
  omap (fun v =>
          let cleaned := laterThan windowStart v in
          if (length cleaned =? 0)%nat then None else Some cleaned)
       store.

(** [checkRateLimit(key, limit)] on [rateLimitStore], a [Map] from keys to
    arrays of timestamps.  [now] is the value of [Date.now()] and [cleanup]
    the outcome of [Math.random() < 0.01]. *)
Definition checkRateLimit (now : Z) (cleanup : bool) (key : string) (limit : RateLimit.t)
    (store : gmap string (list Z)) : bool * gmap string (list Z) :=
  let windowStart := now - RateLimit.windowMs limit in
  let store :=
    match store !! key with
    | None => <[key := []]> store
    | Some _ => store
    end in
  let requests := default [] (store !! key) in
  let validRequests := laterThan windowStart requests in
  if RateLimit.maxRequests limit <=? Z.of_nat (length validRequests) then
    (false, store)
  else
    let validRequests := validRequests ++ [now] in
    let store := <[key := validRequests]> store in
    let store := if cleanup then cleanupStore windowStart store else store in
    (true, store).

(** * Notions used by the statements *)

(** The customer that [Customer.findById(userId)] finds. *)
Definition customerOf (w : World.t) (req : CreateOrderReq.t) : option Customer.t :=
  castObjectId (CreateOrderReq.userId req) ≫= fun id => Db.customers (World.db w) !! id.


(** The product that a cart line names, priced under the tentative
    wholesale-aware rule. *)
Definition tentativeLine (isSubscriber : bool) (productMap : gmap string Product.t)
    (item : CartItem.t) (ci : ComputedItem.t) : Prop :=
  productMap !! CartItem.id item = Some (ComputedItem.product ci)
  /\ ComputedItem.pricing ci =
       calculateOptimalPricing isSubscriber (ComputedItem.product ci) (CartItem.count item).

(** The product that a cart line names, priced under the pure retail rule. *)
Definition retailLine (productMap : gmap string Product.t)
    (item : CartItem.t) (ci : ComputedItem.t) : Prop :=
  productMap !! CartItem.id item = Some (ComputedItem.product ci)
  /\ ComputedItem.pricing ci =
       Pricing.mk retail (CartItem.count item) 0
         (num_mul (nullish (Product.discountPrice (ComputedItem.product ci))
                           (Product.basePrice (ComputedItem.product ci)))
                  (ofZ (CartItem.count item)))
         (nullish (Product.discountPrice (ComputedItem.product ci))
                  (Product.basePrice (ComputedItem.product ci))).

(** The line totals under the tentative wholesale-aware pricing, added
    one after the other, in cart order, to [cartTotal]. *)
Definition addTentativeTotals (isSubscriber : bool) (productMap : gmap string Product.t)
    (items : list CartItem.t) (cartTotal : number) : number :=
  fold_left
    (fun acc item =>
       match productMap !! CartItem.id item with
       | Some p =>
           num_add acc
             (Pricing.totalPrice (calculateOptimalPricing isSubscriber p (CartItem.count item)))
       | None => acc
       end) items cartTotal.

(** The summed cart total under the tentative wholesale-aware pricing. *)
Definition tentativeCartTotal (isSubscriber : bool) (productMap : gmap string Product.t)
    (items : list CartItem.t) : number :=
  addTentativeTotals isSubscriber productMap items zero.

(** The retail line totals, unrounded, added in cart order to
    [cartTotal]. *)
Definition addRetailTotals (productMap : gmap string Product.t)
    (items : list CartItem.t) (cartTotal : number) : number :=
  fold_left
    (fun acc item =>
       match productMap !! CartItem.id item with
       | Some p => num_add acc (num_mul (retailUnit p) (ofZ (CartItem.count item)))
       | None => acc
       end) items cartTotal.

(** The summed cart total under pure retail pricing. *)
Definition retailCartTotal (productMap : gmap string Product.t)
    (items : list CartItem.t) : number :=
  addRetailTotals productMap items zero.

(** The totals of the priced lines, added in order from zero. *)
Definition sumTotals (cis : list ComputedItem.t) : number :=
  fold_left (fun acc ci => num_add acc (Pricing.totalPrice (ComputedItem.pricing ci)))
            cis zero.

(** A stored line priced retail, as the schema keeps it: both prices
    have gone through [Number(x.toFixed(2))] when the line was built. *)
Definition retailOrderLine (productMap : gmap string Product.t)
    (item : CartItem.t) (oi : OrderItem.t) : Prop :=
  exists p,
    productMap !! CartItem.id item = Some p
    /\ OrderItem.mode oi = retail
    /\ OrderItem.unitsBought oi = CartItem.count item
    /\ OrderItem.bundlesBought oi = 0
    /\ OrderItem.unitPrice oi =
         toFixed2 (nullish (Product.discountPrice p) (Product.basePrice p))
    /\ OrderItem.totalPrice oi =
         toFixed2 (num_mul (nullish (Product.discountPrice p) (Product.basePrice p))
                           (ofZ (CartItem.count item))).

(** The units that the lines of an order hold of one product, each line
    counted once. *)
Definition unitsBoughtOf (pid : string) (items : list OrderItem.t) : Z :=
  fold_right
    (fun item acc =>
       if String.eqb (OrderItem.product item) pid
       then OrderItem.unitsBought item + acc else acc)
    0 items.

(** An order as [Order.findById] returns it: filed under its own id, and
    valid, since it was validated when it was saved. *)
Definition stored (w : World.t) (orderId : string) (order : Order.t) : Prop :=
  Db.orders (World.db w) !! orderId = Some order
  /\ Order._id order = orderId
  /\ validate order = true.

Definition stockOf (pid : string) (w : World.t) : option Z :=
  Product.stock <$> Db.products (World.db w) !! pid.

Definition statusOf (orderId : string) (w : World.t) : option Status :=
  Order.status <$> Db.orders (World.db w) !! orderId.

Definition deliveryPartnerOf (orderId : string) (w : World.t) : option (option string) :=
  Order.deliveryPartner <$> Db.orders (World.db w) !! orderId.

(** Modelled from the spec: the [joinRoom] socket handler is not among the
    sources.  A watcher explicitly joins an order room, and the room of
    an order is named by the raw order id (the room that every
    [io.to(orderId).emit] of the controller addresses). *)
Definition joinRoom (socket orderId : string) (io : Io.t) : Io.t :=
  Io.join socket orderId io.

(** The order filed under [orderId] is still there in [w'], with the same
    delivery partner. *)
Definition keepsDeliveryPartner (orderId : string) (w w' : World.t) : Prop :=
  forall o,
    Db.orders (World.db w) !! orderId = Some o ->
    Order._id o = orderId ->
    exists o',
      Db.orders (World.db w') !! orderId = Some o'
      /\ Order.deliveryPartner o' = Order.deliveryPartner o.

(** Case analysis on every test of a handler, innermost scrutinee
    first; the branches whose response contradicts a hypothesis on the
    status code are closed. *)
Ltac handler_cases :=
  repeat match goal with
         | |- context [match ?x with _ => _ end] =>
             lazymatch x with
             | context [match _ with _ => _ end] => fail
             | _ => destruct x eqn:?
             end
         end;
  simpl; try discriminate.

(** ** What a request may do to the stored orders *)

Definition terminal (s : Status) : Prop := s = delivered \/ s = cancelled.

(** The fields of an order that no handler writes once the order exists. *)
Definition sameCore (o o' : Order.t) : Prop :=
  Order._id o' = Order._id o
  /\ Order.orderId o' = Order.orderId o
  /\ Order.customer o' = Order.customer o
  /\ Order.branch o' = Order.branch o
  /\ Order.items o' = Order.items o
  /\ Order.totalPrice o' = Order.totalPrice o
  /\ Order.deliveryFee o' = Order.deliveryFee o
  /\ Order.deliveryLocation o' = Order.deliveryLocation o
  /\ Order.pickupLocation o' = Order.pickupLocation o
  /\ Order.paymentStatus o' = Order.paymentStatus o
  /\ Order.paymentDetails o' = Order.paymentDetails o
  /\ Order.createdAt o' = Order.createdAt o.

(** How the status and the delivery partner of an order differ between
    what a handler fetched and what it saved. *)
Inductive Move (o o' : Order.t) : Prop :=
| move_stay :
    Order.status o' = Order.status o ->
    Order.deliveryPartner o' = Order.deliveryPartner o -> Move o o'
| move_accept :
    Order.status o = pending -> Order.status o' = accepted ->
    is_Some (Order.deliveryPartner o') -> Move o o'
| move_pickup :
    Order.status o = accepted -> Order.status o' = in_progress ->
    is_Some (Order.deliveryPartner o') -> Move o o'
| move_mark :
    Order.status o = in_progress -> Order.status o' = awaitconfirmation ->
    Order.deliveryPartner o' = Order.deliveryPartner o -> Move o o'
| move_receipt :
    Order.status o = awaitconfirmation -> Order.status o' = delivered ->
    Order.deliveryPartner o' = Order.deliveryPartner o -> Move o o'
| move_cancel :
    ~ terminal (Order.status o) -> Order.status o' = cancelled ->
    Order.deliveryPartner o' = Order.deliveryPartner o -> Move o o'
| move_from_bound_pending :
    Order.status o = pending -> is_Some (Order.deliveryPartner o) -> Move o o'.

(** The effect of one request on the collection of orders: nothing, one
    stored order rewritten, one order inserted under the fresh id, or the
    order named by a [DELETE] removed. *)
Inductive OrdersEffect (env : Env.t) (request : Request)
    (orders orders' : gmap string Order.t) : Prop :=
| effect_none : orders' = orders -> OrdersEffect env request orders orders'
| effect_write (id : string) (o o' : Order.t) :
    orders !! id = Some o ->
    orders' = <[Order._id o := o']> orders ->
    sameCore o o' -> validate o' = true -> Move o o' ->
    OrdersEffect env request orders orders'
| effect_insert (o' : Order.t) :
    orders' = <[Env.freshId env := o']> orders ->
    Order._id o' = Env.freshId env ->
    Order.status o' = pending -> Order.deliveryPartner o' = None ->
    validate o' = true ->
    OrdersEffect env request orders orders'
| effect_delete (id : string) :
    request = DeleteOrder id ->
    orders' = delete id orders -> OrdersEffect env request orders orders'.

(** Every order is filed under its own id and passes validation. *)
Definition wellFiled (orders : gmap string Order.t) : Prop :=
  forall id o, orders !! id = Some o -> Order._id o = id /\ validate o = true.




(** ** Stock levels *)

(** No product has a negative stock. *)
Definition stockNonNegative (products : gmap string Product.t) : Prop :=
  forall pid p, products !! pid = Some p -> 0 <= Product.stock p.

(** The orders that a query lists. *)
Definition listed (r : QueryResponse.t) : list Order.t :=
  match QueryResponse.body r with
  | QOrders orders _ => orders
  | QHistory orders => orders
  | _ => []
  end.

(** ** Requests derived from a request *)

(** The same cart sent with [preview: true]. *)
Definition asPreview (req : CreateOrderReq.t) : CreateOrderReq.t :=
  CreateOrderReq.mk (CreateOrderReq.userId req) (CreateOrderReq.items req)
    (CreateOrderReq.branch req) (CreateOrderReq.addressId req)
    (CreateOrderReq.paymentMode req) (CreateOrderReq.deliveryFee req) true.

(** The delivery fee that [createOrder] charges when the client sends
    none. *)
Definition defaultDeliveryFee (cartTotal : number) : number :=
  if num_ltb cartTotal (ofZ 1000) then ofZ 49 else ofZ 0.

(** ** Runs of the rate limiter *)

Module Call.
Record t := mk { now : Z; cleanup : bool; key : string; limit : RateLimit.t }.
End Call.

Definition check (c : Call.t) (store : gmap string (list Z))
    : bool * gmap string (list Z) :=
  checkRateLimit (Call.now c) (Call.cleanup c) (Call.key c) (Call.limit c) store.

(** The store after a sequence of calls. *)
Definition serve (calls : list Call.t) (store : gmap string (list Z))
    : gmap string (list Z) :=
  fold_left (fun s c => snd (check c s)) calls store.

(** The times of the calls under [key] that were let through. *)
Fixpoint passed (key : string) (calls : list Call.t) (store : gmap string (list Z))
    : list Z :=
  match calls with
  | [] => []
  | c :: calls =>
      (if fst (check c store) && String.eqb (Call.key c) key then [Call.now c] else [])
      ++ passed key calls (snd (check c store))
  end.

(** How many of the times [l] lie in the window [(t - w, t]]. *)
Definition within (w t : Z) (l : list Z) : Z :=
  Z.of_nat (length (List.filter (fun x => (t - w <? x) && (x <=? t)) l)).

(** * Scenarios *)

(** ** A small shop *)

(** The ids of the documents of the small shop. *)
Definition cust1 : string := "65000000000000000000c001".
Definition br1 : string := "65000000000000000000b001".
Definition addr1 : string := "65000000000000000000ad01".
Definition dp1 : string := "65000000000000000000d001".
Definition dp2 : string := "65000000000000000000d002".
Definition milk : string := "650000000000000000000a00".
Definition prodA : string := "650000000000000000000a01".
Definition prodB : string := "650000000000000000000a02".
Definition prodC : string := "650000000000000000000a03".
Definition prodD : string := "650000000000000000000a04".
Definition prodE : string := "650000000000000000000a05".
Definition order1 : string := "65000000000000000000e001".
Definition order2 : string := "65000000000000000000e002".
Definition order9 : string := "65000000000000000000e009".

(** Milk at 50 a litre, or 200 for a bundle of five. *)
Definition bundleProduct : Product.t :=
  Product.mk milk "Milk" None "1" "L" (ofZ 50) None (Some (ofZ 200)) (Some 5) 100 None.

Definition gateProducts : gmap string Product.t := {[ milk := bundleProduct ]}.
Definition gateCart : list CartItem.t := [CartItem.mk milk 10].

(** The same milk with a bundle price of zero. *)
Definition freeBundleProduct : Product.t :=
  Product.mk milk "Milk" None "1" "L" (ofZ 50) None (Some zero) (Some 5) 100 None.

Definition demoAddress : Address.t :=
  Address.mk addr1 cust1 "12 Main Street" None "Pune" "MH" "411001" true
             (Some (decimal 185 1)) (Some (decimal 735 1)).

Definition demoBranch : Branch.t :=
  Branch.mk (Some (Some (decimal 185 1), Some (decimal 735 1))) (Some "Market Road").

Definition productA : Product.t :=
  Product.mk prodA "Product A" None "1" "L" (ofZ 100) None None (Some 1) 10 (Some 10).

Definition productB : Product.t :=
  Product.mk prodB "Product B" None "500" "ml" (ofZ 50) None None (Some 1) 2 (Some 10).

Definition demoDb (subscriber : bool) (products : gmap string Product.t)
    (orders : gmap string Order.t) : Db.t :=
  Db.mk {[ cust1 := Customer.mk subscriber ]}
        (<[ dp2 := DeliveryPartner.mk (Some br1) ]>
           {[ dp1 := DeliveryPartner.mk (Some br1) ]})
        {[ br1 := demoBranch ]}
        [demoAddress] products orders 0.

Definition demoProducts : gmap string Product.t :=
  <[ prodB := productB ]> {[ prodA := productA ]}.

Definition demoWorld (subscriber : bool) : World.t :=
  World.mk (demoDb subscriber demoProducts ∅) (Io.mk ∅ []).

Definition demoEnv : Env.t := Env.mk 1000 order1.

Definition demoCart : list CartItem.t :=
  [CartItem.mk prodA 2; CartItem.mk prodB 1].

Definition demoCreate (paymentMode : option string) : CreateOrderReq.t :=
  CreateOrderReq.mk cust1 demoCart br1 None paymentMode None false.

(** A product priced to the thousandth of a currency unit: 99.999. *)
Definition finePricedProduct : Product.t :=
  Product.mk prodC "Product C" None "1" "Piece" (decimal 99999 3) None None (Some 1) 10
             (Some 10).

Definition finePricedWorld : World.t :=
  World.mk (demoDb false {[ prodC := finePricedProduct ]} ∅) (Io.mk ∅ []).

Definition finePricedCreate : CreateOrderReq.t :=
  CreateOrderReq.mk cust1 [CartItem.mk prodC 1] br1 None None None false.



(** Two products without bundles, priced 499.21 and 3.95; five units of
    the first and one of the second come to 2500 on paper. *)
Definition nearGateProducts : gmap string Product.t :=
  <[ prodE := Product.mk prodE "Product E" None "1" "Piece" (decimal 395 2) None None None
                         10 None ]>
    {[ prodD := Product.mk prodD "Product D" None "1" "Piece" (decimal 49921 2) None None
                           None 10 None ]}.

Definition nearGateCart : list CartItem.t :=
  [CartItem.mk prodD 5; CartItem.mk prodE 1].


(** ** The life of one order in the small shop *)

Definition demoAccept (orderId partner : string) : AcceptOrderReq.t :=
  AcceptOrderReq.mk orderId (Some partner).

Definition demoCancel : CancelOrderReq.t :=
  CancelOrderReq.mk order1 (Some "ordered by mistake") (Some "customer").

(** The shop after the cart of the scenario has been ordered. *)
Definition createdWorld : World.t :=
  snd (createOrder demoEnv (demoCreate None) (demoWorld false)).

(** ... after partner [dp1] has accepted the order. *)
Definition acceptedWorld : World.t :=
  snd (acceptOrder demoEnv (demoAccept order1 dp1) createdWorld).

(** ... after partner [dp1] has picked it up. *)
Definition pickedUpWorld : World.t :=
  snd (pickupOrder demoEnv (PickupOrderReq.mk order1 (Some dp1) None) acceptedWorld).

(** A second order, for the last unit of product B. *)
Definition secondCreate : CreateOrderReq.t :=
  CreateOrderReq.mk cust1 [CartItem.mk prodB 1] br1 None None None false.

Definition twoOrdersWorld : World.t :=
  snd (createOrder (Env.mk 1001 order2) secondCreate createdWorld).

Definition demoStatusUpdate (user : JsId) : UpdateOrderStatusReq.t :=
  UpdateOrderStatusReq.mk order1 user "in-progress" None.

Definition demoConfirm (user : JsId) : ConfirmOrderReq.t :=
  ConfirmOrderReq.mk order1 user
    (Some (Location.plain (Some (decimal 185 1)) (Some (decimal 735 1)) (Some "Market Road"))).

(** The picked-up order of the small shop, watched by one socket. *)
Definition watchedWorld : World.t :=
  World.mk (World.db pickedUpWorld) (joinRoom "sock1" order1 (World.io pickedUpWorld)).

(** A later moment, with an unused id. *)
Definition laterEnv : Env.t := Env.mk 2000 order9.

(** ... after the customer has cancelled the picked-up order. *)
Definition cancelledWorld : World.t :=
  snd (cancelOrder demoEnv demoCancel pickedUpWorld).

(** A position reported on the way. *)
Definition demoPosition : Location.t :=
  Location.plain (Some (decimal 185 1)) (Some (decimal 738 1)) (Some "FC Road").

Definition demoReport : UpdateLocationReq.t :=
  UpdateLocationReq.mk order1 (Some dp1) (Some demoPosition).

(** Twenty-five sign-in attempts of one client, a millisecond apart, every
    second one with a cleanup. *)
Definition demoCalls : list Call.t :=
  (fun n => Call.mk (Z.of_nat n) (Nat.even n) "auth_9999000011" RATE_LIMITS_AUTH)
    <$> seq 0 25.

(** * Properties *)

(** ** The two passes over the cart *)

Lemma tentativePass_inr isSub pm items : forall acc tot cis total,
  tentativePass isSub pm items acc tot = inr (cis, total) ->
  exists cis', cis = acc ++ cis'
    /\ Forall2 (tentativeLine isSub pm) items cis'
    /\ total = addTentativeTotals isSub pm items tot.
Proof.
  induction items as [|item rest IH]; intros acc tot cis total H; simpl in *.
  - inversion H; subst. exists []. rewrite app_nil_r.
    split; [reflexivity|]. split; [constructor | reflexivity].
  - unfold addTentativeTotals. simpl.
    destruct (pm !! CartItem.id item) as [p|] eqn:Hp; [|discriminate].
    destruct (Product.stock p <? CartItem.count item); [discriminate|].
    apply IH in H as (cis' & -> & HF & Ht).
    exists (ComputedItem.mk p (calculateOptimalPricing isSub p (CartItem.count item)) :: cis').
    rewrite <- app_assoc. split; [reflexivity|]. split.
    + constructor; [|exact HF]. split; [exact Hp | reflexivity].
    + exact Ht.
Qed.

Lemma retailPass_Some pm items : forall tot cis total,
  retailPass pm items tot = Some (cis, total) ->
  Forall2 (retailLine pm) items cis
  /\ total = addRetailTotals pm items tot
  /\ total = fold_left (fun acc ci => num_add acc (Pricing.totalPrice (ComputedItem.pricing ci)))
                       cis tot.
Proof.
  induction items as [|item rest IH]; intros tot cis total H; simpl in *.
  - inversion H; subst. split; [constructor|]. split; reflexivity.
  - unfold addRetailTotals. simpl.
    destruct (pm !! CartItem.id item) as [p|] eqn:Hp; [|discriminate].
    destruct (retailPass pm rest _) as [[cis' total']|] eqn:Hr; [|discriminate].
    inversion H; subst. apply IH in Hr as (HF & Ht & Hs).
    split; [|split].
    + constructor; [|exact HF]. split; [exact Hp | reflexivity].
    + exact Ht.
    + simpl. exact Hs.
Qed.


(** ** Per-line wholesale decision *)

(** C4 (amended).  For a subscriber and a product whose bundle price and
    bundle size are both set, with [bundleCount = floor(units / size)]
    and [remainder = units % size], the line is priced wholesale, at
    [bundleCount * bundlePrice + remainder * retailUnit], exactly when
    the bundle price and the bundle size are both non-zero,
    [bundleCount >= 1] and that total, computed in double precision, is
    strictly below [retailUnit * units] computed likewise; otherwise the
    line is priced retail.  The decision reads nothing but the line's
    own product and units. *)
Theorem wholesale_iff_strictly_cheaper
    (p : Product.t) (units : Z) (bundlePrice : number) (bundleSize : Z) :
  Product.subscriptionPrice p = Some bundlePrice ->
  Product.unitPerSubscription p = Some bundleSize ->
  let bundleCount := units / bundleSize in
  let remainder := Z.rem units bundleSize in
  let wholesaleTotal :=
    num_add (num_mul (ofZ bundleCount) bundlePrice)
            (num_mul (ofZ remainder) (retailUnit p)) in
  let retailTotal := num_mul (retailUnit p) (ofZ units) in
  let line := calculateOptimalPricing true p units in
  (Pricing.mode line = wholesale <->
     truthyN bundlePrice = true /\ truthyZ bundleSize = true
     /\ num_ltb wholesaleTotal retailTotal = true /\ 1 <= bundleCount)
  /\ (Pricing.mode line = wholesale ->
      line = Pricing.mk wholesale units bundleCount wholesaleTotal
                        (num_div wholesaleTotal (ofZ units)))
  /\ (Pricing.mode line <> wholesale ->
      line = Pricing.mk retail units 0 retailTotal (retailUnit p))
  /\ (0 <= units -> 0 < bundleSize -> remainder = units mod bundleSize).
Proof.
  intros Hsp Hups bundleCount remainder wholesaleTotal retailTotal line.
  assert (Hline : line =
    if truthyN bundlePrice && truthyZ bundleSize then
      if 0 <? bundleCount then
        if num_ltb wholesaleTotal retailTotal
        then Pricing.mk wholesale units bundleCount wholesaleTotal
                        (num_div wholesaleTotal (ofZ units))
        else retailPricing p units
      else retailPricing p units
    else retailPricing p units).
  { subst line. unfold calculateOptimalPricing. simpl.
    rewrite Hsp, Hups. reflexivity. }
  split; [|split; [|split]].
  - rewrite Hline.
    destruct (truthyN bundlePrice); simpl; [|split; [discriminate | intros [? _]; discriminate]].
    destruct (truthyZ bundleSize); simpl;
      [|split; [discriminate | intros (_ & ? & _); discriminate]].
    destruct (0 <? bundleCount) eqn:Hb.
    + apply Z.ltb_lt in Hb. destruct (num_ltb wholesaleTotal retailTotal); simpl.
      * split; [intros _; repeat split; lia | reflexivity].
      * split; [discriminate | intros (_ & _ & ? & _); discriminate].
    + apply Z.ltb_ge in Hb. simpl. split; [discriminate | intros (_ & _ & _ & ?); lia].
  - rewrite Hline. destruct (truthyN bundlePrice && truthyZ bundleSize); [|discriminate].
    destruct (0 <? bundleCount); [|discriminate].
    destruct (num_ltb wholesaleTotal retailTotal); [reflexivity | discriminate].
  - rewrite Hline. destruct (truthyN bundlePrice && truthyZ bundleSize); [|reflexivity].
    destruct (0 <? bundleCount); [|reflexivity].
    destruct (num_ltb wholesaleTotal retailTotal); [|reflexivity].
    simpl. congruence.
  - intros Hu Hs. apply Z.rem_mod_nonneg; lia.
Qed.

(** Ten litres of milk are two bundles: 400 instead of 500. *)
Lemma wholesale_iff_strictly_cheaper_witness :
  Pricing.mode (calculateOptimalPricing true bundleProduct 10) = wholesale
  /\ Pricing.totalPrice (calculateOptimalPricing true bundleProduct 10) = ofZ 400.
Proof.
  pose proof (wholesale_iff_strictly_cheaper bundleProduct 10 (ofZ 200) 5
                eq_refl eq_refl) as (Hiff & Hw & _).
  cbv zeta in Hiff, Hw.
  assert (M : Pricing.mode (calculateOptimalPricing true bundleProduct 10) = wholesale).
  { apply Hiff. repeat split; vm_compute; (reflexivity || discriminate). }
  split; [exact M|]. rewrite (Hw M). vm_compute. reflexivity.
Defined.

(** C4 as stated fails for a bundle price that is set to zero: two free
    bundles make ten litres cost nothing, which is strictly below the
    retail total of 500, and one bundle at least is bought, yet the line
    is priced retail. *)
Lemma free_bundle_is_priced_retail :
  let p := freeBundleProduct in
  let units := 10 in
  let bundleCount := units / 5 in
  let remainder := Z.rem units 5 in
  let wholesaleTotal :=
    num_add (num_mul (ofZ bundleCount) zero) (num_mul (ofZ remainder) (retailUnit p)) in
  let retailTotal := num_mul (retailUnit p) (ofZ units) in
  Product.subscriptionPrice p = Some zero
  /\ Product.unitPerSubscription p = Some 5
  /\ num_ltb wholesaleTotal retailTotal = true
  /\ 1 <= bundleCount
  /\ calculateOptimalPricing true p units
     = Pricing.mk retail units 0 retailTotal (retailUnit p).
Proof. repeat split; vm_compute; (reflexivity || discriminate). Qed.

(** The comparison is the one of doubles: three units at 0.1 come to
    0.30000000000000004, so a bundle of three for 0.3 is taken. *)
Lemma wholesale_is_decided_on_doubles :
  let p := Product.mk milk "Milk" None "1" "L" (decimal 1 1) None (Some (decimal 3 1))
                      (Some 3) 100 None in
  num_mul (retailUnit p) (ofZ 3) = S754_finite false 5404319552844596 (-54)
  /\ decimal 3 1 = S754_finite false 5404319552844595 (-54)
  /\ calculateOptimalPricing true p 3
     = Pricing.mk wholesale 3 1 (decimal 3 1) (num_div (decimal 3 1) (ofZ 3)).
Proof. repeat split; vm_compute; reflexivity. Qed.

(** ** Cart-level gate *)

(** C3.  For a subscriber's cart that prices without error, wholesale
    selections survive only when the tentative wholesale-aware total, the
    double that the first loop has summed, is at least 2500; when it is
    not, every line is priced again under pure retail
    ([unitPrice = discountPrice ?? basePrice], mode retail, no bundles)
    and the cart total is the sum of those retail lines. *)
Theorem cart_gate_discards_wholesale
    (productMap : gmap string Product.t) (items : list CartItem.t)
    (computedItems : list ComputedItem.t) (cartTotal : number) (wholesaleEligible : bool) :
  priceCart true productMap items = PricedOk computedItems cartTotal wholesaleEligible ->
  let tentative := tentativeCartTotal true productMap items in
  (wholesaleEligible = true <-> num_leb THRESHOLD tentative = true)
  /\ (Exists (fun ci => Pricing.mode (ComputedItem.pricing ci) = wholesale) computedItems ->
      num_leb THRESHOLD tentative = true)
  /\ (num_leb THRESHOLD tentative = true ->
      Forall2 (tentativeLine true productMap) items computedItems
      /\ cartTotal = tentative)
  /\ (num_leb THRESHOLD tentative = false ->
      Forall2 (retailLine productMap) items computedItems
      /\ cartTotal = retailCartTotal productMap items
      /\ cartTotal = sumTotals computedItems).
Proof.
  intros H tentative. unfold priceCart in H.
  destruct (tentativePass true productMap items [] zero) as [e|[tcis ttotal]] eqn:Ht;
    [discriminate|].
  apply tentativePass_inr in Ht as (cis' & E & HF & Htot). simpl in E. subst cis'.
  fold (tentativeCartTotal true productMap items) in Htot. fold tentative in Htot.
  subst ttotal. unfold wholesaleEligibleOf in H. simpl in H.
  destruct (num_leb THRESHOLD tentative) eqn:Hg; simpl in H.
  - inversion H; subst.
    split; [tauto|]. split; [tauto|]. split.
    + intros _. split; [exact HF | reflexivity].
    + discriminate.
  - destruct (retailPass productMap items zero) as [[rcis rtotal]|] eqn:Hr; [|discriminate].
    inversion H; subst. apply retailPass_Some in Hr as (HR & Hrt & Hrs).
    split; [split; discriminate|].
    split.
    + intros Hex. exfalso. apply Exists_exists in Hex as (ci & Hin & Hm).
      clear - HR Hin Hm. induction HR as [|item ci' ? ? [_ Hp] ? IH].
      * inversion Hin.
      * apply elem_of_cons in Hin as [->|Hin].
        -- rewrite Hp in Hm. discriminate.
        -- apply IH. exact Hin.
    + split; [discriminate|].
      intros _. split; [exact HR|]. split; [exact Hrt | exact Hrs].
Qed.

(** Ten litres of milk come to 400 under the tentative pricing, which
    misses the gate: the line is priced retail, 500. *)
Lemma cart_gate_discards_wholesale_witness :
  tentativeCartTotal true gateProducts gateCart = ofZ 400
  /\ exists cis total,
       priceCart true gateProducts gateCart = PricedOk cis total false
       /\ Forall2 (retailLine gateProducts) gateCart cis
       /\ total = ofZ 500.
Proof.
  split; [vm_compute; reflexivity|].
  assert (E : priceCart true gateProducts gateCart =
              PricedOk [ComputedItem.mk bundleProduct (retailPricing bundleProduct 10)]
                       (ofZ 500) false)
    by (vm_compute; reflexivity).
  destruct (cart_gate_discards_wholesale _ _ _ _ _ E) as (_ & _ & _ & Hr).
  destruct Hr as (HF & _ & _); [vm_compute; reflexivity|].
  eexists _, _. split; [exact E|]. split; [exact HF | reflexivity].
Defined.

(** The gate is taken on the double sum.  Five units at 499.21 and one
    at 3.95 sum to 2499.9999999999995, which misses the gate, whereas
    three units at 833.3333333333333 come to 2500 and pass it. *)
Lemma gate_is_taken_on_the_double_sum :
  tentativeCartTotal true nearGateProducts nearGateCart
  = S754_finite false 5497558138879999 (-41)
  /\ (exists cis total,
        priceCart true nearGateProducts nearGateCart = PricedOk cis total false)
  /\ wholesaleEligibleOf true (num_mul (decimal 8333333333333333 13) (ofZ 3)) = true.
Proof.
  split; [vm_compute; reflexivity|]. split; [|vm_compute; reflexivity].
  eexists _, _. vm_compute. reflexivity.
Qed.

(** ** What [createOrder] does when it answers 201 *)


Lemma saveNewOrder_Some env o d o' d' :
  saveNewOrder env o d = Some (o', d') ->
  Order.items o' = Order.items o
  /\ Order.totalPrice o' = Order.totalPrice o
  /\ Order.paymentStatus o' = Order.paymentStatus o
  /\ Order.status o' = Order.status o
  /\ Order._id o' = Order._id o
  /\ Db.orders d' !! Order._id o = Some o'
  /\ Db.products d' = Db.products d.
Proof.
  unfold saveNewOrder. destruct (validate o && numbersCast o); [|discriminate].
  intros H. inversion H; subst; clear H. simpl.
  repeat split; try reflexivity. apply lookup_insert_eq.
Qed.

Lemma createOrder_created env req w r w' :
  createOrder env req w = (r, w') ->
  Response.status r = 201 ->
  exists c cis total elig o,
    customerOf w req = Some c
    /\ priceCart (Customer.isSubscription c) (Db.products (World.db w))
                 (CreateOrderReq.items req) = PricedOk cis total elig
    /\ CreateOrderReq.preview req = false
    /\ (isCOD (CreateOrderReq.paymentMode req) = true -> elig = true)
    /\ Response.body r = BOrder o
    /\ Order.items o = List.map orderItemOf cis
    /\ Order.totalPrice o = toFixed2 total
    /\ Order.status o = pending
    /\ Order.paymentStatus o =
         (if isCOD (CreateOrderReq.paymentMode req) then pay_completed else pay_pending)
    /\ Db.orders (World.db w') !! Env.freshId env = Some o
    /\ Db.products (World.db w') =
         decrementStock (List.map orderItemOf cis) (Db.products (World.db w)).
Proof.
  unfold createOrder, customerOf. intros H S.
  destruct (castObjectId (CreateOrderReq.userId req)) as [customerId|];
    [|inversion H; subst; discriminate].
  destruct (castObjectId (CreateOrderReq.branch req)) as [branchId|];
    [|inversion H; subst; discriminate].
  destruct (Db.customers (World.db w) !! customerId) as [c|] eqn:Hc;
    [|inversion H; subst; discriminate].
  destruct (Db.branches (World.db w) !! branchId) as [b|];
    [|inversion H; subst; discriminate].
  destruct (findAddress _ _ _) as [[a|]|]; [|inversion H; subst; discriminate..].
  destruct (productIdsCast (CreateOrderReq.items req));
    [|inversion H; subst; discriminate].
  cbn [negb] in H.
  destruct (priceCart _ _ _) as [e| |cis total elig] eqn:Hp.
  - inversion H; subst. destruct e; discriminate.
  - inversion H; subst; discriminate.
  - destruct (CreateOrderReq.preview req) eqn:Hpv; [inversion H; subst; discriminate|].
    destruct (isCOD (CreateOrderReq.paymentMode req) && negb elig) eqn:Hcod;
      [inversion H; subst; discriminate|].
    destruct (Branch.location b) as [[blat blon]|]; [|inversion H; subst; discriminate].
    destruct (saveNewOrder _ _ _) as [[saved d2]|] eqn:Hs;
      [|inversion H; subst; discriminate].
    inversion H; subst; clear H.
    apply saveNewOrder_Some in Hs as (Hi & Ht & Hps & Hst & _ & Hl & Hpr).
    exists c, cis, total, elig, saved. simpl.
    split; [exact Hc|]. split; [exact Hp|]. split; [reflexivity|].
    split. { intros Hc'. rewrite Hc' in Hcod. destruct elig; [reflexivity | discriminate]. }
    split; [reflexivity|].
    destruct (isCOD (CreateOrderReq.paymentMode req)); simpl in *;
      rewrite Hi, Ht, Hps, Hst, Hpr; auto 10.
Qed.

(** ** Cash on delivery *)




(** ** Orders of customers without a subscription *)

Lemma priceCart_non_subscriber pm items cis total elig :
  priceCart false pm items = PricedOk cis total elig ->
  elig = false
  /\ Forall2 (retailLine pm) items cis
  /\ total = retailCartTotal pm items.
Proof.
  unfold priceCart, wholesaleEligibleOf. simpl.
  destruct (tentativePass false pm items [] zero) as [e|[tcis ttotal]]; [discriminate|].
  destruct (retailPass pm items zero) as [[rcis rtotal]|] eqn:Hr; [|discriminate].
  intros H; inversion H; subst. apply retailPass_Some in Hr as (HF & Ht & _).
  split; [reflexivity|]. split; [exact HF | exact Ht].
Qed.

Lemma retailLines_stored pm items cis :
  Forall2 (retailLine pm) items cis ->
  Forall2 (retailOrderLine pm) items (List.map orderItemOf cis).
Proof.
  induction 1 as [|item ci items cis [Hp Hpr] _ IH]; simpl; constructor; [|exact IH].
  exists (ComputedItem.product ci). unfold orderItemOf. simpl. rewrite Hpr. simpl.
  auto 10.
Qed.

(** C8 (amended).  An order created for a customer without a subscription
    has every line in mode retail, without bundles, with [unitPrice]
    equal to [Number((discountPrice ?? basePrice).toFixed(2))] and the
    line's [totalPrice] equal to
    [Number(((discountPrice ?? basePrice) * units).toFixed(2))]; the
    order's [totalPrice] is [Number(cartTotal.toFixed(2))], where
    [cartTotal] is the sum, in cart order and in double precision, of the
    line totals before they were rounded. *)
Theorem non_subscriber_order_is_retail
    (env : Env.t) (req : CreateOrderReq.t) (w w' : World.t)
    (c : Customer.t) (r : Response.t) (o : Order.t) :
  customerOf w req = Some c ->
  Customer.isSubscription c = false ->
  createOrder env req w = (r, w') ->
  Response.status r = 201 ->
  Response.body r = BOrder o ->
  let productMap := Db.products (World.db w) in
  let items := CreateOrderReq.items req in
  Forall2 (retailOrderLine productMap) items (Order.items o)
  /\ Order.totalPrice o = toFixed2 (retailCartTotal productMap items).
Proof.
  intros Hc Hs Hr S Hb productMap items.
  destruct (createOrder_created _ _ _ _ _ Hr S)
    as (c' & cis & total & elig & o' & Hc' & Hp & _ & _ & Hb' & Hi & Ht & _).
  rewrite Hc in Hc'. inversion Hc'; subst c'. rewrite Hb in Hb'. inversion Hb'; subst o'.
  rewrite Hs in Hp. apply priceCart_non_subscriber in Hp as (_ & HF & Htot).
  split.
  - rewrite Hi. apply retailLines_stored. exact HF.
  - rewrite Ht, Htot. reflexivity.
Qed.

(** The scenario of the specification: two units at 100 and one unit at
    50 for a customer without a subscription come to 250, every line in
    mode retail. *)
Lemma non_subscriber_order_is_retail_witness :
  exists o w',
    createOrder demoEnv (demoCreate None) (demoWorld false)
    = (Response.mk 201 "Order created successfully" (BOrder o), w')
    /\ Forall2 (retailOrderLine demoProducts) demoCart (Order.items o)
    /\ List.map OrderItem.totalPrice (Order.items o) = [ofZ 200; ofZ 50]
    /\ Order.totalPrice o = ofZ 250.
Proof.
  let v := eval vm_compute in (createOrder demoEnv (demoCreate None) (demoWorld false)) in
  assert (E : createOrder demoEnv (demoCreate None) (demoWorld false) = v)
    by (vm_compute; reflexivity).
  match type of E with
  | _ = (Response.mk _ _ (BOrder ?o), ?w') => exists o, w'
  end.
  split; [exact E|].
  assert (Hc : customerOf (demoWorld false) (demoCreate None) = Some (Customer.mk false))
    by (vm_compute; reflexivity).
  destruct (non_subscriber_order_is_retail _ _ _ _ _ _ _ Hc eq_refl E eq_refl eq_refl)
    as (HL & HT).
  split; [exact HL|]. split; [vm_compute; reflexivity|].
  rewrite HT. vm_compute. reflexivity.
Defined.

(** C8 as stated fails: the stored [unitPrice] and [totalPrice] of a
    retail line are rounded to two decimals, 100 for one unit of a
    product priced 99.999. *)
Lemma retail_unit_price_is_rounded :
  exists o w' oi,
    customerOf finePricedWorld finePricedCreate = Some (Customer.mk false)
    /\ createOrder demoEnv finePricedCreate finePricedWorld
       = (Response.mk 201 "Order created successfully" (BOrder o), w')
    /\ Order.items o = [oi]
    /\ OrderItem.mode oi = retail
    /\ OrderItem.unitPrice oi = ofZ 100
    /\ OrderItem.unitPrice oi <>
         nullish (Product.discountPrice finePricedProduct) (Product.basePrice finePricedProduct)
    /\ OrderItem.totalPrice oi <>
         num_mul (nullish (Product.discountPrice finePricedProduct)
                          (Product.basePrice finePricedProduct))
                 (ofZ (OrderItem.unitsBought oi)).
Proof.
  let v := eval vm_compute in (createOrder demoEnv finePricedCreate finePricedWorld) in
  assert (E : createOrder demoEnv finePricedCreate finePricedWorld = v)
    by (vm_compute; reflexivity).
  match type of E with
  | _ = (Response.mk _ _ (BOrder ?o), ?w') =>
      exists o, w';
      match eval vm_compute in (Order.items o) with
      | [?oi] => exists oi
      end
  end.
  split; [vm_compute; reflexivity|]. split; [exact E|].
  split; [reflexivity|]. split; [reflexivity|]. split; [vm_compute; reflexivity|].
  split; vm_compute; discriminate.
Qed.

(** The rounding is the one of [toFixed] on doubles: the double nearest
    to 1.005 lies below it and is stored as 1, and five units at 0.075
    come to the double 0.375, which is stored as 0.38. *)
Lemma prices_are_rounded_as_doubles :
  toFixed2 (decimal 1005 3) = ofZ 1
  /\ toFixed2 (num_mul (decimal 75 3) (ofZ 5)) = decimal 38 2.
Proof. split; vm_compute; reflexivity. Qed.

(** ** Stock restoration at cancellation *)

Lemma incStock_incStock (a b : Z) (p : Product.t) :
  Product.incStock b (Product.incStock a p) = Product.incStock (a + b) p.
Proof. unfold Product.incStock. simpl. f_equal. lia. Qed.

Lemma incStock_0 (p : Product.t) : Product.incStock 0 p = p.
Proof. destruct p. unfold Product.incStock. simpl. f_equal. lia. Qed.

Lemma lookup_incProductStock (id pid : string) (d : Z) (ps : gmap string Product.t) :
  incProductStock id d ps !! pid =
  if String.eqb id pid then Product.incStock d <$> ps !! pid else ps !! pid.
Proof.
  unfold incProductStock. rewrite lookup_alter.
  destruct (String.eqb_spec id pid) as [->|Hne].
  - rewrite decide_True; reflexivity.
  - rewrite decide_False; [reflexivity | exact Hne].
Qed.

Lemma lookup_restoreStock (items : list OrderItem.t) : forall ps pid,
  restoreStock items ps !! pid =
  Product.incStock (unitsBoughtOf pid items) <$> ps !! pid.
Proof.
  unfold restoreStock.
  induction items as [|item rest IH]; intros ps pid; simpl.
  - destruct (ps !! pid) as [p|]; simpl; [rewrite incStock_0|]; reflexivity.
  - rewrite IH. unfold truthyZ.
    destruct (Z.eqb_spec (OrderItem.unitsBought item) 0) as [E0|N0]; simpl.
    + rewrite E0. destruct (OrderItem.product item =? pid)%string; reflexivity.
    + rewrite lookup_incProductStock.
      destruct (OrderItem.product item =? pid)%string; [|reflexivity].
      destruct (ps !! pid) as [p|]; simpl; [|reflexivity].
      rewrite incStock_incStock. reflexivity.
Qed.

Lemma terminal_statuses (s : Status) :
  includes ["delivered"; "cancelled"] (statusName s) = true
  <-> s = delivered \/ s = cancelled.
Proof.
  destruct s; simpl; split; intros H; try discriminate; try reflexivity; auto;
    destruct H; discriminate.
Qed.

Lemma saveOrder_stored env o d w_io :
  validate o = true ->
  exists o' d',
    saveOrder env o d = Some (o', d')
    /\ o' = Order.set_updatedAt (Env.now env) o
    /\ d' = Db.set_orders (<[Order._id o := o']> (Db.orders d)) d
    /\ stored (World.mk d' w_io) (Order._id o) o'.
Proof.
  intros Hv. unfold saveOrder. rewrite Hv. eexists _, _.
  split; [reflexivity|]. split; [reflexivity|]. split; [reflexivity|].
  unfold stored. simpl. split; [apply lookup_insert_eq|]. split; [reflexivity | exact Hv].
Qed.

(** C7.  With a reason supplied, [cancelOrder] on an order that is
    neither delivered nor cancelled answers 200, stores the order as
    cancelled and adds back to each product the units of each line of
    the order, once per line; cancelling the same order again answers
    400 and changes nothing.  On an order that is already delivered or
    cancelled it answers 400 and changes nothing. *)
Theorem cancelOrder_restores_stock_once
    (env : Env.t) (req : CancelOrderReq.t) (w : World.t) (order : Order.t) :
  truthyOS (CancelOrderReq.reason req) = true ->
  stored w (CancelOrderReq.orderId req) order ->
  let r := cancelOrder env req w in
  (Order.status order <> delivered -> Order.status order <> cancelled ->
     Response.status (fst r) = 200
     /\ (exists order',
           stored (snd r) (CancelOrderReq.orderId req) order'
           /\ Order.status order' = cancelled
           /\ Order.items order' = Order.items order)
     /\ (forall pid,
           Db.products (World.db (snd r)) !! pid =
           Product.incStock (unitsBoughtOf pid (Order.items order))
             <$> Db.products (World.db w) !! pid)
     /\ (forall env' req',
           CancelOrderReq.orderId req' = CancelOrderReq.orderId req ->
           Response.status (fst (cancelOrder env' req' (snd r))) = 400
           /\ snd (cancelOrder env' req' (snd r)) = snd r))
  /\ (Order.status order = delivered \/ Order.status order = cancelled ->
      Response.status (fst r) = 400 /\ snd r = w).
Proof.
  intros Hreason (Hl & Hid & Hv) r.
  assert (Er : r = cancelOrder env req w) by reflexivity. clearbody r.
  unfold cancelOrder in Er. cbv zeta in Er. rewrite Hreason, Hl in Er. cbn [negb] in Er.
  destruct (includes ["delivered"; "cancelled"] (statusName (Order.status order))) eqn:Ht.
  - apply terminal_statuses in Ht. subst r. split.
    + intros Hd Hc. destruct Ht; contradiction.
    + intros _. split; reflexivity.
  - split.
    2:{ intros Hterm. apply terminal_statuses in Hterm. congruence. }
    intros _ _.
    set (order0 := Order.set_updatedAt (Env.now env) (Order.set_status cancelled order)) in Er.
    set (d1 := Db.set_products _ (World.db w)) in Er.
    assert (Hv1 : validate order0 = true) by exact Hv.
    destruct (saveOrder_stored env order0 d1 (World.io w) Hv1)
      as (o' & d' & Hs & Ho' & Hd' & _).
    rewrite Hs in Er. subst r. simpl.
    assert (Hst : Order.status o' = cancelled) by (subst o'; reflexivity).
    assert (Hlk : Db.orders d' !! CancelOrderReq.orderId req = Some o').
    { subst d'. simpl. rewrite <- Hid. apply lookup_insert_eq. }
    split; [reflexivity|]. split; [|split].
    + exists o'. split; [|split].
      * unfold stored. simpl. split; [exact Hlk|]. split.
        -- subst o'. exact Hid.
        -- subst o'. exact Hv.
      * exact Hst.
      * subst o'. reflexivity.
    + intros pid. subst d'. simpl. apply lookup_restoreStock.
    + intros env' req' Hsame. unfold cancelOrder. simpl.
      destruct (truthyOS (CancelOrderReq.reason req')); simpl; [|split; reflexivity].
      rewrite Hsame, Hlk, Hst. simpl. split; reflexivity.
Qed.

Lemma cancelOrder_restores_stock_once_witness :
  exists order,
    stored pickedUpWorld order1 order
    /\ Order.status order = in_progress
    /\ Response.status (fst (cancelOrder demoEnv demoCancel pickedUpWorld)) = 200
    /\ stockOf prodA pickedUpWorld = Some 6
    /\ stockOf prodA (snd (cancelOrder demoEnv demoCancel pickedUpWorld)) = Some 8
    /\ statusOf order1 (snd (cancelOrder demoEnv demoCancel pickedUpWorld)) = Some cancelled
    /\ Response.status
         (fst (cancelOrder demoEnv demoCancel
                 (snd (cancelOrder demoEnv demoCancel pickedUpWorld)))) = 400.
Proof.
  let v := eval vm_compute in (Db.orders (World.db pickedUpWorld) !! order1) in
  match v with
  | Some ?o => exists o; assert (Hst : stored pickedUpWorld order1 o)
  end.
  { split; [vm_compute; reflexivity|]. split; vm_compute; reflexivity. }
  destruct (cancelOrder_restores_stock_once demoEnv demoCancel pickedUpWorld _
              eq_refl Hst) as [Hlive _].
  destruct Hlive as (H200 & _ & _ & Hagain); [discriminate | discriminate |].
  split; [exact Hst|]. split; [reflexivity|]. split; [exact H200|].
  split; [vm_compute; reflexivity|]. split; [vm_compute; reflexivity|].
  split; [vm_compute; reflexivity|].
  exact (proj1 (Hagain demoEnv demoCancel eq_refl)).
Defined.

(** ** Stock is taken both at creation and at acceptance *)

(** C1, evaluated.  Ordering two units of a product with ten in stock
    leaves eight when the order is created and six once it is accepted:
    the lines of one order are decremented twice, the first time at
    creation; a later cancellation gives back only one of the two. *)
Theorem stock_decremented_at_creation_and_at_acceptance :
  stockOf prodA (demoWorld false) = Some 10
  /\ Response.status (fst (createOrder demoEnv (demoCreate None) (demoWorld false))) = 201
  /\ stockOf prodA createdWorld = Some 8
  /\ statusOf order1 createdWorld = Some pending
  /\ Response.status (fst (acceptOrder demoEnv (demoAccept order1 dp1) createdWorld)) = 200
  /\ stockOf prodA acceptedWorld = Some 6
  /\ stockOf prodA (snd (cancelOrder demoEnv demoCancel acceptedWorld)) = Some 8.
Proof. repeat split; vm_compute; reflexivity. Qed.

(** ** Acceptance is not all-or-nothing *)

(** Unless it answers 200, [acceptOrder] writes no order. *)
Lemma acceptOrder_refusal_keeps_orders env req w :
  Response.status (fst (acceptOrder env req w)) <> 200 ->
  Db.orders (World.db (snd (acceptOrder env req w))) = Db.orders (World.db w).
Proof.
  unfold acceptOrder. cbv zeta. handler_cases; intros H; try reflexivity.
  exfalso. apply H. reflexivity.
Qed.

(** C2, evaluated.  With both orders placed, product B is out of stock.
    Accepting the first order re-checks and decrements product A, then
    finds product B short and answers 400: the order is still pending
    and unassigned, yet the stock of product A has gone from 8 to 6. *)
Theorem acceptOrder_partial_decrement :
  let r := acceptOrder demoEnv (demoAccept order1 dp1) twoOrdersWorld in
  stockOf prodA twoOrdersWorld = Some 8
  /\ stockOf prodB twoOrdersWorld = Some 0
  /\ Response.status (fst r) = 400
  /\ Response.message (fst r) = "Insufficient stock for Product B. Available: 0, Required: 1"
  /\ Db.orders (World.db (snd r)) = Db.orders (World.db twoOrdersWorld)
  /\ statusOf order1 (snd r) = Some pending
  /\ stockOf prodA (snd r) = Some 6
  /\ stockOf prodB (snd r) = Some 0.
Proof.
  cbv zeta.
  split; [vm_compute; reflexivity|]. split; [vm_compute; reflexivity|].
  split; [vm_compute; reflexivity|]. split; [vm_compute; reflexivity|].
  split; [apply acceptOrder_refusal_keeps_orders; vm_compute; discriminate|].
  repeat split; vm_compute; reflexivity.
Qed.

(** When every line passes its re-check, every line is decremented. *)
Lemma reduceStock_all_pass (items : list OrderItem.t) : forall ps ps',
  reduceStock items ps = (None, ps') ->
  forall pid,
    ps' !! pid = Product.incStock (- unitsBoughtOf pid items) <$> ps !! pid.
Proof.
  induction items as [|item rest IH]; intros ps ps' H pid; simpl in *.
  - inversion H; subst. destruct (ps' !! pid) as [p|]; simpl; [rewrite incStock_0|]; reflexivity.
  - unfold truthyZ in H.
    destruct (Z.eqb_spec (OrderItem.unitsBought item) 0) as [E0|N0]; simpl in H.
    + rewrite (IH _ _ H pid), E0.
      destruct (OrderItem.product item =? pid)%string; reflexivity.
    + destruct (ps !! OrderItem.product item) as [p|]; [|discriminate].
      destruct (Product.stock p <? OrderItem.unitsBought item); [discriminate|].
      rewrite (IH _ _ H pid), lookup_incProductStock.
      destruct (OrderItem.product item =? pid)%string; [|reflexivity].
      destruct (ps !! pid) as [q|]; simpl; [|reflexivity].
      rewrite incStock_incStock. f_equal. f_equal. lia.
Qed.

(** ** Status updates on a pending order *)

(** C5, evaluated.  The table of valid transitions has no row for
    [pending], so the transition check never rejects an update of a
    pending order.  On the pending order of the small shop the attempt
    [pending -> in-progress] is answered 500, not 400: the ownership
    check reads [deliveryPartner], which a pending order does not have.
    The order is left as it was. *)
Theorem pending_to_in_progress_is_not_invalid_transition :
  validTransitions pending = None
  /\ statusOf order1 createdWorld = Some pending
  /\ deliveryPartnerOf order1 createdWorld = Some None
  /\ updateOrderStatus demoEnv (demoStatusUpdate (IdObject dp1)) createdWorld
     = (internalServerError, createdWorld)
  /\ updateOrderStatus demoEnv (demoStatusUpdate (IdString dp1)) createdWorld
     = (internalServerError, createdWorld).
Proof. repeat split; vm_compute; reflexivity. Qed.

(** Updates of a delivered or cancelled order are refused with 400 and
    change nothing. *)
Lemma updateOrderStatus_terminal env req w partner order :
  Db.deliveryPartners (World.db w) !! toString (UpdateOrderStatusReq.user req) = Some partner ->
  Db.orders (World.db w) !! UpdateOrderStatusReq.orderId req = Some order ->
  Order.status order = delivered \/ Order.status order = cancelled ->
  updateOrderStatus env req w = (Response.mk 400 "Order cannot be updated" BMessage, w).
Proof.
  intros Hp Ho Ht. unfold updateOrderStatus. cbv zeta. rewrite Hp, Ho.
  apply terminal_statuses in Ht. rewrite Ht. reflexivity.
Qed.

(** ** Who the delivery partner of an order is *)

(** C6, evaluated.  The order accepted by partner [dp1] is confirmed by
    partner [dp2]: [confirmOrder] checks only that the caller is some
    delivery partner and writes the caller into [deliveryPartner]. *)
Theorem confirmOrder_reassigns_delivery_partner :
  let r := confirmOrder demoEnv (demoConfirm (IdObject dp2)) acceptedWorld in
  deliveryPartnerOf order1 acceptedWorld = Some (Some dp1)
  /\ statusOf order1 acceptedWorld = Some accepted
  /\ Response.status (fst r) = 200
  /\ deliveryPartnerOf order1 (snd r) = Some (Some dp2).
Proof. repeat split; vm_compute; reflexivity. Qed.

(** ** Forced unsubscription at the end of an order *)

Lemma orderRoom_ne (orderId : string) : orderRoom orderId <> orderId.
Proof.
  intros H. apply (f_equal String.length) in H.
  change (6 + String.length orderId = String.length orderId)%nat in H. lia.
Qed.

Lemma members_emit room r e p io :
  Io.members room (Io.emit r e p io) = Io.members room io.
Proof. reflexivity. Qed.

Lemma members_socketsLeave_orderRoom orderId io :
  Io.members orderId (Io.socketsLeave (orderRoom orderId) io) = Io.members orderId io.
Proof.
  unfold Io.members, Io.socketsLeave. simpl.
  rewrite lookup_delete_ne; [reflexivity | apply orderRoom_ne].
Qed.

Lemma members_statusEvents orderId order loc io :
  Io.members orderId (statusEvents orderId order loc io) = Io.members orderId io.
Proof.
  unfold statusEvents.
  destruct loc, (Order.status order), (Order.deliveryPartner order);
    rewrite ?members_socketsLeave_orderRoom; reflexivity.
Qed.

(** C9, as the code has it.  Whenever [cancelOrder],
    [confirmDeliveryReceipt] or [updateOrderStatus] answers 200, the
    sockets in the room named by the order id, to which the order's
    events are emitted, are the same after the call as before it: the
    forced unsubscription empties the room ["order-" ++ orderId], which
    is a different room. *)
Theorem forced_unsubscription_misses_event_room
    (env : Env.t) (w : World.t) (orderId : string) :
  (forall reason cancelledBy,
     let r := cancelOrder env (CancelOrderReq.mk orderId reason cancelledBy) w in
     Response.status (fst r) = 200 ->
     Io.members orderId (World.io (snd r)) = Io.members orderId (World.io w))
  /\ (forall user,
        let r := confirmDeliveryReceipt env (ConfirmDeliveryReceiptReq.mk orderId user) w in
        Response.status (fst r) = 200 ->
        Io.members orderId (World.io (snd r)) = Io.members orderId (World.io w))
  /\ (forall user status loc,
        let r := updateOrderStatus env (UpdateOrderStatusReq.mk orderId user status loc) w in
        Response.status (fst r) = 200 ->
        Io.members orderId (World.io (snd r)) = Io.members orderId (World.io w)).
Proof.
  split; [|split].
  - intros reason cancelledBy. unfold cancelOrder. cbv zeta.
    handler_cases; intros _;
      rewrite ?members_emit, members_socketsLeave_orderRoom; reflexivity.
  - intros user. unfold confirmDeliveryReceipt. cbv zeta.
    handler_cases; intros _;
      rewrite ?members_emit, members_socketsLeave_orderRoom; reflexivity.
  - intros user status loc. unfold updateOrderStatus. cbv zeta.
    handler_cases; intros _; apply members_statusEvents.
Qed.

Lemma forced_unsubscription_misses_event_room_witness :
  let r := cancelOrder demoEnv demoCancel watchedWorld in
  Response.status (fst r) = 200
  /\ statusOf order1 (snd r) = Some cancelled
  /\ Io.members order1 (World.io (snd r)) = {[ "sock1" ]}
  /\ Emit.receivers <$>
       last (Io.emitted (Io.emit order1 "orderStatusUpdated" (POrderId order1)
                                 (World.io (snd r))))
     = Some {[ "sock1" ]}.
Proof.
  cbv zeta.
  assert (S : Response.status (fst (cancelOrder demoEnv demoCancel watchedWorld)) = 200)
    by (vm_compute; reflexivity).
  pose proof (proj1 (forced_unsubscription_misses_event_room demoEnv watchedWorld order1)
                _ _ S
              : Io.members order1 (World.io (snd (cancelOrder demoEnv demoCancel watchedWorld)))
                = Io.members order1 (World.io watchedWorld)) as M.
  assert (M0 : Io.members order1 (World.io watchedWorld) = {[ "sock1" ]})
    by (vm_compute; reflexivity).
  rewrite M0 in M.
  split; [exact S|]. split; [vm_compute; reflexivity|]. split; [exact M|].
  revert M. generalize (World.io (snd (cancelOrder demoEnv demoCancel watchedWorld))).
  intros io' M. unfold Io.emit. cbn [Io.emitted]. rewrite last_snoc.
  cbn [fmap option_fmap option_map Emit.receivers].
  apply (f_equal Some). exact M.
Defined.

(** ** The operations that do keep the delivery partner *)

Lemma saveOrder_Some env o d o' d' :
  saveOrder env o d = Some (o', d') ->
  o' = Order.set_updatedAt (Env.now env) o
  /\ d' = Db.set_orders (<[Order._id o := o']> (Db.orders d)) d.
Proof.
  unfold saveOrder. destruct (validate o); [|discriminate].
  intros H. inversion H; subst. split; reflexivity.
Qed.

Lemma deriveDeliveryStatus_id s o :
  Order._id (deriveDeliveryStatus s o) = Order._id o.
Proof. destruct s; reflexivity. Qed.

Lemma deriveDeliveryStatus_deliveryPartner s o :
  Order.deliveryPartner (deriveDeliveryStatus s o) = Order.deliveryPartner o.
Proof. destruct s; reflexivity. Qed.

Ltac keeps_partner o Ho Hid :=
  first
    [ exists o; split; [exact Ho | first [reflexivity | assumption]]
    | match goal with
      | H : saveOrder _ _ _ = Some _ |- _ =>
          apply saveOrder_Some in H as [-> ->]
      end;
      eexists; split;
      [ simpl; rewrite ?deriveDeliveryStatus_id; simpl; rewrite Hid;
        apply lookup_insert_eq
      | simpl; rewrite ?deriveDeliveryStatus_deliveryPartner; simpl;
        first [reflexivity | assumption] ] ].

(** [pickupOrder], [markOrderAsDelivered], [updateOrderStatus] and
    [updateDeliveryPartnerLocation] check that the caller is the bound
    partner and never write [deliveryPartner]. *)
Lemma later_operations_keep_delivery_partner (env : Env.t) (w : World.t) :
  (forall req, keepsDeliveryPartner (PickupOrderReq.orderId req) w
                 (snd (pickupOrder env req w)))
  /\ (forall req, keepsDeliveryPartner (MarkDeliveredReq.orderId req) w
                    (snd (markOrderAsDelivered env req w)))
  /\ (forall req, keepsDeliveryPartner (UpdateOrderStatusReq.orderId req) w
                    (snd (updateOrderStatus env req w)))
  /\ (forall req, keepsDeliveryPartner (UpdateLocationReq.orderId req) w
                    (snd (updateDeliveryPartnerLocation env req w))).
Proof.
  split; [|split; [|split]]; intros req o Ho Hid.
  - unfold pickupOrder. cbv zeta. rewrite Ho. handler_cases; keeps_partner o Ho Hid.
  - unfold markOrderAsDelivered. cbv zeta. rewrite Ho. handler_cases; keeps_partner o Ho Hid.
  - unfold updateOrderStatus. cbv zeta. rewrite Ho. handler_cases; keeps_partner o Ho Hid.
  - unfold updateDeliveryPartnerLocation. cbv zeta. rewrite Ho.
    handler_cases; keeps_partner o Ho Hid.
Qed.


(** ** What a request may do to the stored orders *)

Lemma Status_eqb_eq (a b : Status) : Status_eqb a b = true <-> a = b.
Proof. destruct a, b; simpl; split; intros H; try reflexivity; discriminate. Qed.

Lemma sameCore_refl (o : Order.t) : sameCore o o.
Proof. repeat split. Qed.

Lemma deriveDeliveryStatus_sameCore s o : sameCore o (deriveDeliveryStatus s o).
Proof. destruct s; repeat split. Qed.

Lemma deriveDeliveryStatus_status s o :
  Order.status (deriveDeliveryStatus s o) = Order.status o.
Proof. destruct s; reflexivity. Qed.

(** What [order.save()] writes. *)
Lemma saveOrder_inv env o d o' d' :
  saveOrder env o d = Some (o', d') ->
  validate o = true
  /\ o' = Order.set_updatedAt (Env.now env) o
  /\ Db.orders d' = <[Order._id o := o']> (Db.orders d)
  /\ Db.products d' = Db.products d.
Proof.
  unfold saveOrder. destruct (validate o); [|discriminate].
  intros H. inversion H; subst. repeat split.
Qed.

Ltac status_facts :=
  repeat match goal with
         | H : negb (Status_eqb _ _) = false |- _ =>
             apply negb_false_iff, Status_eqb_eq in H
         end.

Ltac effect_written :=
  match goal with
  | Hs : saveOrder _ _ _ = Some _, Ho : Db.orders _ !! ?id = Some ?o |- _ =>
      apply saveOrder_inv in Hs as (Hv & -> & Hw & _);
      eapply (effect_write _ _ _ _ id o _ Ho);
      [ exact Hw | try (repeat split) | exact Hv | ]
  end.

Lemma confirmOrder_effect env req w :
  OrdersEffect env (PostConfirm req) (Db.orders (World.db w))
               (Db.orders (World.db (snd (confirmOrder env req w)))).
Proof.
  unfold confirmOrder. cbv zeta. handler_cases; try (apply effect_none; reflexivity).
  status_facts. effect_written.
  apply move_pickup; [assumption | reflexivity | eexists; reflexivity].
Qed.

Lemma acceptOrder_effect env req w :
  OrdersEffect env (PostAccept req) (Db.orders (World.db w))
               (Db.orders (World.db (snd (acceptOrder env req w)))).
Proof.
  unfold acceptOrder. cbv zeta. handler_cases; try (apply effect_none; reflexivity).
  status_facts. effect_written.
  apply move_accept; [assumption | reflexivity | eexists; reflexivity].
Qed.

Lemma pickupOrder_effect env req w :
  OrdersEffect env (PostPickup req) (Db.orders (World.db w))
               (Db.orders (World.db (snd (pickupOrder env req w)))).
Proof.
  unfold pickupOrder. cbv zeta. handler_cases; try (apply effect_none; reflexivity);
    status_facts; effect_written;
    (apply move_pickup; [assumption | reflexivity | simpl; eauto]).
Qed.

Lemma markOrderAsDelivered_effect env req w :
  OrdersEffect env (PostMarkDelivered req) (Db.orders (World.db w))
               (Db.orders (World.db (snd (markOrderAsDelivered env req w)))).
Proof.
  unfold markOrderAsDelivered. cbv zeta.
  handler_cases; try (apply effect_none; reflexivity);
    status_facts; effect_written;
    (apply move_mark; [assumption | reflexivity | reflexivity]).
Qed.

Lemma updateDeliveryPartnerLocation_effect env req w :
  OrdersEffect env (PatchLocation req) (Db.orders (World.db w))
               (Db.orders (World.db (snd (updateDeliveryPartnerLocation env req w)))).
Proof.
  unfold updateDeliveryPartnerLocation. cbv zeta.
  handler_cases; try (apply effect_none; reflexivity);
    effect_written; apply move_stay; reflexivity.
Qed.

Lemma confirmDeliveryReceipt_effect env req w :
  OrdersEffect env (PatchConfirmReceipt req) (Db.orders (World.db w))
               (Db.orders (World.db (snd (confirmDeliveryReceipt env req w)))).
Proof.
  unfold confirmDeliveryReceipt. cbv zeta.
  handler_cases; try (apply effect_none; reflexivity);
    status_facts; effect_written;
    (apply move_receipt; [assumption | reflexivity | reflexivity]).
Qed.

Lemma cancelOrder_effect env req w :
  OrdersEffect env (PostCancel req) (Db.orders (World.db w))
               (Db.orders (World.db (snd (cancelOrder env req w)))).
Proof.
  unfold cancelOrder. cbv zeta.
  handler_cases; try (apply effect_none; reflexivity);
    effect_written;
    (apply move_cancel; [|reflexivity|reflexivity]);
    intros Hterm; apply terminal_statuses in Hterm; congruence.
Qed.

Lemma updateOrderStatus_effect env req w :
  OrdersEffect env (PatchStatus req) (Db.orders (World.db w))
               (Db.orders (World.db (snd (updateOrderStatus env req w)))).
Proof.
  unfold updateOrderStatus. cbv zeta.
  handler_cases; try (apply effect_none; reflexivity).
  all: match goal with
       | H : parseStatus ?s = Some ?n, Ho : Db.orders _ !! _ = Some ?o |- _ =>
           destruct (Order.status o) eqn:Hst; simpl in *; try discriminate
       end.
  all: try match goal with
       | H1 : Some _ = Some ?l, H2 : negb (includes ?l ?s) = false,
         H3 : parseStatus ?s = Some _ |- _ =>
           inversion H1; subst l; clear H1; simpl in H2;
           rewrite orb_false_r in H2; apply negb_false_iff, String.eqb_eq in H2;
           rewrite H2 in H3; vm_compute in H3; inversion H3; subst; clear H3
       end.
  all: try match goal with
       | H : parseStatus _ = Some ?n |- _ => destruct n
       end.
  all: effect_written.
  all: first
         [ apply move_from_bound_pending; [assumption | eauto]
         | apply move_pickup; [assumption | reflexivity | simpl; eauto]
         | apply move_mark; [assumption | reflexivity | reflexivity]
         | apply move_receipt; [assumption | reflexivity | reflexivity] ].
Qed.

Lemma createOrder_effect env req w :
  OrdersEffect env (PostOrder req) (Db.orders (World.db w))
               (Db.orders (World.db (snd (createOrder env req w)))).
Proof.
  unfold createOrder. cbv zeta.
  handler_cases; try (apply effect_none; reflexivity).
  all: match goal with
       | H : saveNewOrder _ _ _ = Some _ |- _ =>
           unfold saveNewOrder in H;
           match type of H with
           | (if validate ?x && numbersCast ?x then _ else _) = _ =>
               destruct (validate x) eqn:Hv; [|discriminate];
               destruct (numbersCast x); [|discriminate]
           end;
           inversion H; subst; clear H
       end.
  all: eapply effect_insert; [reflexivity | reflexivity | reflexivity | reflexivity | exact Hv].
Qed.

Lemma deleteOrder_effect env orderId w :
  OrdersEffect env (DeleteOrder orderId) (Db.orders (World.db w))
               (Db.orders (World.db (snd (deleteOrder orderId w)))).
Proof.
  unfold deleteOrder. cbv zeta.
  destruct (Db.orders (World.db w) !! orderId); simpl.
  - eapply effect_delete; reflexivity.
  - apply effect_none. reflexivity.
Qed.

(** Every route of the order router has one of the four effects. *)
Lemma handle_effect env request w :
  OrdersEffect env request (Db.orders (World.db w))
               (Db.orders (World.db (snd (handle env request w)))).
Proof.
  destruct request; simpl.
  - apply createOrder_effect.
  - apply confirmOrder_effect.
  - apply acceptOrder_effect.
  - apply pickupOrder_effect.
  - apply markOrderAsDelivered_effect.
  - apply updateDeliveryPartnerLocation_effect.
  - apply updateOrderStatus_effect.
  - apply confirmDeliveryReceipt_effect.
  - apply cancelOrder_effect.
  - apply deleteOrder_effect.
Qed.

Lemma wellFiled_empty : wellFiled ∅.
Proof. intros id o H. rewrite lookup_empty in H. discriminate. Qed.

Lemma handle_keeps_wellFiled env request w :
  wellFiled (Db.orders (World.db w)) ->
  wellFiled (Db.orders (World.db (snd (handle env request w)))).
Proof.
  intros Hwf.
  destruct (handle_effect env request w)
    as [-> | id o o' Ho -> Hc Hv _ | o' -> Hid _ _ Hv | id _ ->]; [exact Hwf | | |].
  - intros id' x Hx. destruct (Hwf id o Ho) as [Hio _].
    apply lookup_insert_Some in Hx as [[<- <-] | [_ Hx]]; [|exact (Hwf _ _ Hx)].
    split; [apply Hc | exact Hv].
  - intros id' x Hx.
    apply lookup_insert_Some in Hx as [[<- <-] | [_ Hx]]; [|exact (Hwf _ _ Hx)].
    split; [exact Hid | exact Hv].
  - intros id' x Hx. apply lookup_delete_Some in Hx as [_ Hx]. exact (Hwf _ _ Hx).
Qed.

Lemma createdWorld_wellFiled : wellFiled (Db.orders (World.db createdWorld)).
Proof.
  exact (handle_keeps_wellFiled demoEnv (PostOrder (demoCreate None))
           (demoWorld false) wellFiled_empty).
Qed.

Lemma acceptedWorld_wellFiled : wellFiled (Db.orders (World.db acceptedWorld)).
Proof.
  exact (handle_keeps_wellFiled demoEnv (PostAccept (demoAccept order1 dp1))
           createdWorld createdWorld_wellFiled).
Qed.

Lemma pickedUpWorld_wellFiled : wellFiled (Db.orders (World.db pickedUpWorld)).
Proof.
  exact (handle_keeps_wellFiled demoEnv
           (PostPickup (PickupOrderReq.mk order1 (Some dp1) None))
           acceptedWorld acceptedWorld_wellFiled).
Qed.

Lemma cancelledWorld_wellFiled : wellFiled (Db.orders (World.db cancelledWorld)).
Proof.
  exact (handle_keeps_wellFiled demoEnv (PostCancel demoCancel)
           pickedUpWorld pickedUpWorld_wellFiled).
Qed.

(** X1.  The order router keeps the collection well filed: starting from
    an empty collection, after any sequence of requests to the routes of
    [handle] every stored order is filed under its own [_id] and passes
    the schema validation. *)
Theorem requests_keep_orders_well_filed
    (requests : list (Env.t * Request)) (w : World.t) :
  Db.orders (World.db w) = ∅ ->
  wellFiled
    (Db.orders (World.db (fold_left (fun w er => snd (handle er.1 er.2 w)) requests w))).
Proof.
  intros He. assert (Hwf : wellFiled (Db.orders (World.db w))).
  { rewrite He. apply wellFiled_empty. }
  clear He. revert w Hwf.
  induction requests as [|[env request] rest IH]; intros w Hwf; simpl; [exact Hwf|].
  apply IH. apply handle_keeps_wellFiled. exact Hwf.
Qed.

Lemma requests_keep_orders_well_filed_witness :
  wellFiled (Db.orders (World.db acceptedWorld)).
Proof.
  exact (requests_keep_orders_well_filed
           [(demoEnv, PostOrder (demoCreate None));
            (demoEnv, PostAccept (demoAccept order1 dp1))]
           (demoWorld false) eq_refl).
Defined.

(** What becomes of one stored order under one request. *)
Lemma handle_stored_order env request w id o :
  wellFiled (Db.orders (World.db w)) ->
  Db.orders (World.db w) !! Env.freshId env = None ->
  Db.orders (World.db w) !! id = Some o ->
  request <> DeleteOrder id ->
  exists o',
    Db.orders (World.db (snd (handle env request w))) !! id = Some o'
    /\ sameCore o o'
    /\ (o' = o \/ Move o o').
Proof.
  intros Hwf Hfresh Ho Hnd.
  destruct (handle_effect env request w)
    as [-> | id1 o1 o1' Ho1 -> Hc _ Hm | o' -> _ _ _ _ | id1 Hreq ->].
  - exists o. split; [exact Ho|]. split; [apply sameCore_refl | left; reflexivity].
  - destruct (Hwf id1 o1 Ho1) as [Hid1 _]. rewrite Hid1.
    destruct (decide (id1 = id)) as [->|Hne].
    + rewrite Ho in Ho1. inversion Ho1; subst o1. exists o1'.
      split; [apply lookup_insert_eq|]. split; [exact Hc | right; exact Hm].
    + exists o. rewrite lookup_insert_ne by exact Hne.
      split; [exact Ho|]. split; [apply sameCore_refl | left; reflexivity].
  - exists o. rewrite lookup_insert_ne by congruence.
    split; [exact Ho|]. split; [apply sameCore_refl | left; reflexivity].
  - exists o. rewrite lookup_delete_ne by congruence.
    split; [exact Ho|]. split; [apply sameCore_refl | left; reflexivity].
Qed.

(** X2.  What an order is made of is written once.  Whatever request
    other than its own [DELETE] the routes of [handle] serve, a stored
    order keeps its id, order code, customer, branch, line items,
    [totalPrice], [deliveryFee], delivery and pickup locations, payment
    fields and creation time. *)
Theorem order_core_is_write_once
    (env : Env.t) (request : Request) (w : World.t) (id : string) (o : Order.t) :
  wellFiled (Db.orders (World.db w)) ->
  Db.orders (World.db w) !! Env.freshId env = None ->
  Db.orders (World.db w) !! id = Some o ->
  request <> DeleteOrder id ->
  exists o',
    Db.orders (World.db (snd (handle env request w))) !! id = Some o'
    /\ sameCore o o'.
Proof.
  intros Hwf Hfresh Ho Hnd.
  destruct (handle_stored_order env request w id o Hwf Hfresh Ho Hnd) as (o' & H1 & H2 & _).
  exists o'. split; assumption.
Qed.

(** X3.  Delivered and cancelled are absorbing: no request to the routes
    of [handle] other than the order's own [DELETE] changes the status or
    the delivery partner of an order that is delivered or cancelled. *)
Theorem terminal_status_is_absorbing
    (env : Env.t) (request : Request) (w : World.t) (id : string) (o : Order.t) :
  wellFiled (Db.orders (World.db w)) ->
  Db.orders (World.db w) !! Env.freshId env = None ->
  Db.orders (World.db w) !! id = Some o ->
  terminal (Order.status o) ->
  request <> DeleteOrder id ->
  exists o',
    Db.orders (World.db (snd (handle env request w))) !! id = Some o'
    /\ Order.status o' = Order.status o
    /\ Order.deliveryPartner o' = Order.deliveryPartner o.
Proof.
  intros Hwf Hfresh Ho Hterm Hnd.
  destruct (handle_stored_order env request w id o Hwf Hfresh Ho Hnd)
    as (o' & H1 & _ & [-> | Hm]).
  - exists o. auto.
  - exists o'. split; [exact H1|].
    destruct Hm; try (split; assumption); try contradiction;
      exfalso; destruct Hterm; congruence.
Qed.


Lemma order_core_is_write_once_witness :
  exists o',
    Db.orders (World.db (snd (handle laterEnv (PostCancel demoCancel) pickedUpWorld)))
    !! order1 = Some o'
    /\ Order.totalPrice o' = ofZ 250
    /\ length (Order.items o') = 2%nat.
Proof.
  let v := eval vm_compute in (Db.orders (World.db pickedUpWorld) !! order1) in
  match v with
  | Some ?o =>
      destruct (order_core_is_write_once laterEnv (PostCancel demoCancel) pickedUpWorld
                  order1 o pickedUpWorld_wellFiled)
        as (o' & Ho' & Hc)
  end; [vm_compute; reflexivity | vm_compute; reflexivity | discriminate |].
  exists o'. split; [exact Ho'|].
  destruct Hc as (_ & _ & _ & _ & Hi & Ht & _). rewrite Hi, Ht.
  split; reflexivity.
Defined.

Lemma terminal_status_is_absorbing_witness :
  exists o',
    Db.orders (World.db (snd (handle laterEnv (PostAccept (demoAccept order1 dp2))
                                     cancelledWorld)))
    !! order1 = Some o'
    /\ Order.status o' = cancelled
    /\ Order.deliveryPartner o' = Some dp1.
Proof.
  let v := eval vm_compute in (Db.orders (World.db cancelledWorld) !! order1) in
  match v with
  | Some ?o =>
      destruct (terminal_status_is_absorbing laterEnv (PostAccept (demoAccept order1 dp2))
                  cancelledWorld order1 o cancelledWorld_wellFiled)
        as (o' & Ho' & Hs & Hd)
  end; [vm_compute; reflexivity | vm_compute; reflexivity | right; reflexivity
       | discriminate |].
  exists o'. split; [exact Ho'|]. split; [rewrite Hs | rewrite Hd]; reflexivity.
Defined.


(** ** Stock at creation and at acceptance *)

Lemma lookup_decrementStock (items : list OrderItem.t) : forall ps pid,
  decrementStock items ps !! pid =
  Product.incStock (- unitsBoughtOf pid items) <$> ps !! pid.
Proof.
  unfold decrementStock.
  induction items as [|item rest IH]; intros ps pid; simpl.
  - destruct (ps !! pid) as [p|]; simpl; [rewrite incStock_0|]; reflexivity.
  - rewrite IH, lookup_incProductStock.
    destruct (OrderItem.product item =? pid)%string; [|reflexivity].
    destruct (ps !! pid) as [p|]; simpl; [|reflexivity].
    rewrite incStock_incStock. f_equal. f_equal. lia.
Qed.

Lemma tentativePass_stock isSub pm items : forall acc tot r,
  tentativePass isSub pm items acc tot = inr r ->
  Forall (fun item => exists p, pm !! CartItem.id item = Some p
                                /\ CartItem.count item <= Product.stock p) items.
Proof.
  induction items as [|item rest IH]; intros acc tot r H; simpl in *; [constructor|].
  destruct (pm !! CartItem.id item) as [p|] eqn:Hp; [|discriminate].
  destruct (Z.ltb_spec (Product.stock p) (CartItem.count item)); [discriminate|].
  constructor; [exists p; split; [exact Hp | lia] | exact (IH _ _ _ H)].
Qed.

(** X5.  When [createOrder] answers 201, every cart line named an
    existing product whose stock covered that line alone, and the stock
    of every product has gone down by the units that all lines of the new
    order hold of it together; lines are checked one by one against the
    stock read before the request, never against what earlier lines of
    the same cart already took. *)
Theorem createOrder_stock_accounting
    (env : Env.t) (req : CreateOrderReq.t) (w : World.t) (o : Order.t) :
  Response.status (fst (createOrder env req w)) = 201 ->
  Response.body (fst (createOrder env req w)) = BOrder o ->
  Forall (fun item =>
            exists p, Db.products (World.db w) !! CartItem.id item = Some p
                      /\ CartItem.count item <= Product.stock p)
         (CreateOrderReq.items req)
  /\ forall pid,
       Db.products (World.db (snd (createOrder env req w))) !! pid =
       Product.incStock (- unitsBoughtOf pid (Order.items o))
         <$> Db.products (World.db w) !! pid.
Proof.
  intros S Hb.
  destruct (createOrder env req w) as [r w'] eqn:E. simpl in *.
  destruct (createOrder_created _ _ _ _ _ E S)
    as (c & cis & total & elig & o' & _ & Hp & _ & _ & Hb' & Hi & _ & _ & _ & _ & Hpr).
  rewrite Hb in Hb'. inversion Hb'; subst o'. split.
  - unfold priceCart in Hp.
    destruct (tentativePass _ _ _ _ _) as [e|r0] eqn:Ht; [discriminate|].
    exact (tentativePass_stock _ _ _ _ _ _ Ht).
  - intros pid. rewrite Hpr, Hi. apply lookup_decrementStock.
Qed.

Lemma createOrder_stock_accounting_witness :
  stockOf prodA (demoWorld false) = Some 10
  /\ stockOf prodA createdWorld = Some 8.
Proof.
  split; [vm_compute; reflexivity|].
  let v := eval vm_compute in (Response.body (fst (createOrder demoEnv (demoCreate None)
                                                     (demoWorld false)))) in
  match v with
  | BOrder ?o =>
      destruct (createOrder_stock_accounting demoEnv (demoCreate None) (demoWorld false) o)
        as [_ H]
  end; [vm_compute; reflexivity | vm_compute; reflexivity |].
  unfold stockOf, createdWorld. rewrite (H prodA). vm_compute. reflexivity.
Defined.

Lemma reduceStock_nonNegative (items : list OrderItem.t) : forall ps,
  stockNonNegative ps -> stockNonNegative (snd (reduceStock items ps)).
Proof.
  induction items as [|item rest IH]; intros ps Hnn; simpl; [exact Hnn|].
  destruct (truthyZ (OrderItem.unitsBought item)); [|apply IH; exact Hnn].
  destruct (ps !! OrderItem.product item) as [p|] eqn:Hp; [|exact Hnn].
  destruct (Z.ltb_spec (Product.stock p) (OrderItem.unitsBought item)); [exact Hnn|].
  apply IH. intros pid q Hq. rewrite lookup_incProductStock in Hq.
  destruct (String.eqb_spec (OrderItem.product item) pid) as [<-|_]; [|exact (Hnn _ _ Hq)].
  rewrite Hp in Hq. simpl in Hq. inversion Hq; subst q. simpl. lia.
Qed.

(** X6.  [acceptOrder] never drives a stock below zero: if no product has
    a negative stock before the call, none has one after it, whether the
    call succeeds or fails and however many lines name the same product. *)
Theorem acceptOrder_keeps_stock_non_negative
    (env : Env.t) (req : AcceptOrderReq.t) (w : World.t) :
  stockNonNegative (Db.products (World.db w)) ->
  stockNonNegative (Db.products (World.db (snd (acceptOrder env req w)))).
Proof.
  intros Hnn. unfold acceptOrder. cbv zeta.
  handler_cases; try exact Hnn.
  all: match goal with
       | H : reduceStock ?items ?ps = (_, ?ps') |- _ =>
           pose proof (reduceStock_nonNegative items ps Hnn) as Hr;
           rewrite H in Hr
       end.
  all: try exact Hr.
  match goal with
  | H : saveOrder _ _ _ = Some _ |- _ =>
      apply saveOrder_inv in H as (_ & _ & _ & Hpr)
  end.
  rewrite Hpr. exact Hr.
Qed.

Lemma twoOrdersWorld_stock : stockNonNegative (Db.products (World.db twoOrdersWorld)).
Proof.
  intros pid p H.
  let a := eval vm_compute in (Db.products (World.db twoOrdersWorld) !! prodA) in
  let b := eval vm_compute in (Db.products (World.db twoOrdersWorld) !! prodB) in
  match a with
  | Some ?pa =>
      match b with
      | Some ?pb =>
          assert (E : Db.products (World.db twoOrdersWorld)
                      = <[prodB := pb]> (<[prodA := pa]> ∅))
            by (vm_compute; reflexivity)
      end
  end.
  rewrite E in H.
  apply lookup_insert_Some in H as [[_ <-] | [_ H]]; [simpl; lia|].
  apply lookup_insert_Some in H as [[_ <-] | [_ H]]; [simpl; lia|].
  rewrite lookup_empty in H. discriminate H.
Qed.

Lemma acceptOrder_keeps_stock_non_negative_witness :
  stockNonNegative
    (Db.products (World.db (snd (acceptOrder demoEnv (demoAccept order1 dp1)
                                             twoOrdersWorld))))
  /\ stockOf prodA (snd (acceptOrder demoEnv (demoAccept order1 dp1) twoOrdersWorld))
     = Some 6.
Proof.
  split; [|vm_compute; reflexivity].
  exact (acceptOrder_keeps_stock_non_negative demoEnv (demoAccept order1 dp1)
           twoOrdersWorld twoOrdersWorld_stock).
Defined.

(** ** Accepting once *)

Lemma reduceStock_failure (items : list OrderItem.t) : forall ps r ps',
  reduceStock items ps = (Some r, ps') -> Response.status r = 400.
Proof.
  induction items as [|item rest IH]; intros ps r ps' H; simpl in H; [discriminate|].
  destruct (truthyZ (OrderItem.unitsBought item)); [|exact (IH _ _ _ H)].
  destruct (ps !! OrderItem.product item) as [p|]; [|inversion H; reflexivity].
  destruct (Product.stock p <? OrderItem.unitsBought item);
    [inversion H; reflexivity | exact (IH _ _ _ H)].
Qed.

(** What a successful [acceptOrder] has checked and written. *)
Lemma acceptOrder_success
    (env : Env.t) (req : AcceptOrderReq.t) (w : World.t) (order : Order.t) :
  wellFiled (Db.orders (World.db w)) ->
  Db.orders (World.db w) !! AcceptOrderReq.orderId req = Some order ->
  Response.status (fst (acceptOrder env req w)) = 200 ->
  let w' := snd (acceptOrder env req w) in
  Order.status order = pending
  /\ (exists dp partner,
        AcceptOrderReq.deliveryPartnerId req = Some dp
        /\ Db.deliveryPartners (World.db w) !! dp = Some partner
        /\ DeliveryPartner.branch partner = Some (Order.branch order)
        /\ exists order',
             Db.orders (World.db w') !! AcceptOrderReq.orderId req = Some order'
             /\ Order.status order' = accepted
             /\ Order.deliveryStatus order' = PartnerAssigned
             /\ Order.deliveryPartner order' = Some dp)
  /\ (forall pid,
        Db.products (World.db w') !! pid =
        Product.incStock (- unitsBoughtOf pid (Order.items order))
          <$> Db.products (World.db w) !! pid)
  /\ (forall env' req',
        AcceptOrderReq.orderId req' = AcceptOrderReq.orderId req ->
        Response.status (fst (acceptOrder env' req' w')) = 400
        /\ snd (acceptOrder env' req' w') = w').
Proof.
  intros Hwf Ho S w'. subst w'. destruct (Hwf _ _ Ho) as [Hid _].
  destruct (acceptOrder env req w) as [resp w'] eqn:E. simpl in *.
  unfold acceptOrder in E. cbv zeta in E. rewrite Ho in E. revert E.
  handler_cases; intros E; inversion E; subst; clear E; simpl in S; try discriminate.
  all: status_facts.
  { match goal with
    | H : reduceStock _ _ = (Some _, _) |- _ => apply reduceStock_failure in H
    end. congruence. }
  match goal with
  | H : saveOrder _ _ _ = Some _ |- _ =>
      apply saveOrder_inv in H as (_ & -> & Hw & Hpr)
  end.
  simpl in Hw, Hpr. rewrite Hid in Hw.
  match goal with
  | H : (?a =? ?b)%string = true |- _ => apply String.eqb_eq in H
  | H : negb (?a =? ?b)%string = false |- _ => apply negb_false_iff, String.eqb_eq in H
  end.
  split; [assumption|]. split; [|split].
  - eexists _, _. split; [reflexivity|]. split; [eassumption|]. split; [congruence|].
    eexists. simpl. rewrite Hw. split; [apply lookup_insert_eq|]. repeat split.
  - intros pid. simpl. rewrite Hpr. simpl.
    match goal with
    | H : reduceStock _ _ = (None, _) |- _ => exact (reduceStock_all_pass _ _ _ H pid)
    end.
  - intros env' req' Hsame. unfold acceptOrder. cbv zeta. simpl.
    rewrite Hsame, Hw, lookup_insert_eq. simpl.
    destruct (AcceptOrderReq.deliveryPartnerId req') as [dp'|]; [|split; reflexivity].
    destruct (negb (truthyS dp')); split; reflexivity.
Qed.

(** X7.  When [acceptOrder] answers 200 the order was pending and the
    partner belongs to the order's branch; the order is stored as
    accepted, "Partner Assigned", bound to that partner; the stock of
    every product has gone down by the units the order holds of it; and
    any further [acceptOrder] on the same order, by whichever partner,
    answers 400 and changes nothing. *)
Theorem acceptOrder_accepts_once
    (env : Env.t) (req : AcceptOrderReq.t) (w : World.t) (order : Order.t) :
  wellFiled (Db.orders (World.db w)) ->
  Db.orders (World.db w) !! AcceptOrderReq.orderId req = Some order ->
  Response.status (fst (acceptOrder env req w)) = 200 ->
  let w' := snd (acceptOrder env req w) in
  Order.status order = pending
  /\ (exists dp partner,
        AcceptOrderReq.deliveryPartnerId req = Some dp
        /\ Db.deliveryPartners (World.db w) !! dp = Some partner
        /\ DeliveryPartner.branch partner = Some (Order.branch order)
        /\ exists order',
             Db.orders (World.db w') !! AcceptOrderReq.orderId req = Some order'
             /\ Order.status order' = accepted
             /\ Order.deliveryStatus order' = PartnerAssigned
             /\ Order.deliveryPartner order' = Some dp)
  /\ (forall pid,
        Db.products (World.db w') !! pid =
        Product.incStock (- unitsBoughtOf pid (Order.items order))
          <$> Db.products (World.db w) !! pid)
  /\ (forall env' req',
        AcceptOrderReq.orderId req' = AcceptOrderReq.orderId req ->
        Response.status (fst (acceptOrder env' req' w')) = 400
        /\ snd (acceptOrder env' req' w') = w').
Proof. exact (acceptOrder_success env req w order). Qed.

Lemma acceptOrder_accepts_once_witness :
  statusOf order1 acceptedWorld = Some accepted
  /\ deliveryPartnerOf order1 acceptedWorld = Some (Some dp1)
  /\ Response.status (fst (acceptOrder laterEnv (demoAccept order1 dp2) acceptedWorld))
     = 400.
Proof.
  let v := eval vm_compute in (Db.orders (World.db createdWorld) !! order1) in
  match v with
  | Some ?o =>
      destruct (acceptOrder_accepts_once demoEnv (demoAccept order1 dp1) createdWorld o
                  createdWorld_wellFiled) as (_ & _ & _ & Hagain)
  end; [vm_compute; reflexivity | vm_compute; reflexivity |].
  split; [vm_compute; reflexivity|]. split; [vm_compute; reflexivity|].
  exact (proj1 (Hagain laterEnv (demoAccept order1 dp2) eq_refl)).
Defined.

(** ** Only the bound partner acts on an order *)

(** X8.  On an order bound to a delivery partner, [pickupOrder],
    [markOrderAsDelivered] and [updateDeliveryPartnerLocation] called
    with any other partner id, and [updateOrderStatus] called by anyone
    who does not compare strictly equal to the bound id, answer with a
    4xx client error and change nothing: neither the database nor the
    rooms nor the emitted events. *)
Theorem only_the_bound_partner_acts
    (env : Env.t) (w : World.t) (id : string) (o : Order.t) (dp caller : string) :
  Db.orders (World.db w) !! id = Some o ->
  Order.deliveryPartner o = Some dp ->
  caller <> dp ->
  (forall loc,
     let r := pickupOrder env (PickupOrderReq.mk id (Some caller) loc) w in
     400 <= Response.status (fst r) < 500 /\ snd r = w)
  /\ (forall loc,
        let r := markOrderAsDelivered env (MarkDeliveredReq.mk id (Some caller) loc) w in
        400 <= Response.status (fst r) < 500 /\ snd r = w)
  /\ (forall loc,
        let r := updateDeliveryPartnerLocation env
                   (UpdateLocationReq.mk id (Some caller) loc) w in
        400 <= Response.status (fst r) < 500 /\ snd r = w)
  /\ (forall user status loc,
        strict_neq dp user = true ->
        let r := updateOrderStatus env (UpdateOrderStatusReq.mk id user status loc) w in
        400 <= Response.status (fst r) < 500 /\ snd r = w).
Proof.
  intros Ho Hdp Hne.
  assert (Hneq : (dp =? caller)%string = false).
  { apply String.eqb_neq. congruence. }
  split; [|split; [|split]].
  - intros loc. unfold pickupOrder. cbv zeta. simpl. rewrite Ho, Hdp, Hneq.
    handler_cases; (split; [lia | reflexivity]).
  - intros loc. unfold markOrderAsDelivered. cbv zeta. simpl. rewrite Ho, Hdp, Hneq.
    handler_cases; (split; [lia | reflexivity]).
  - intros loc. unfold updateDeliveryPartnerLocation. cbv zeta. simpl.
    destruct loc as [loc|]; simpl; [|split; [lia | reflexivity]].
    rewrite Ho, Hdp, Hneq. handler_cases; (split; [lia | reflexivity]).
  - intros user status loc Hs. unfold updateOrderStatus. cbv zeta. simpl.
    rewrite Ho, Hdp, Hs. handler_cases; (split; [lia | reflexivity]).
Qed.

Lemma only_the_bound_partner_acts_witness :
  Response.status
    (fst (pickupOrder demoEnv (PickupOrderReq.mk order1 (Some dp2) None) acceptedWorld))
  = 403
  /\ snd (pickupOrder demoEnv (PickupOrderReq.mk order1 (Some dp2) None) acceptedWorld)
     = acceptedWorld.
Proof.
  let v := eval vm_compute in (Db.orders (World.db acceptedWorld) !! order1) in
  match v with
  | Some ?o =>
      destruct (only_the_bound_partner_acts demoEnv acceptedWorld order1 o dp1 dp2)
        as (Hp & _)
  end; [vm_compute; reflexivity | reflexivity | discriminate |].
  split; [vm_compute; reflexivity | exact (proj2 (Hp None))].
Defined.

(** ** From accepted to delivered *)





(** ** Deleting an order *)


(** What a successful [cancelOrder] writes. *)
Lemma cancelOrder_success env req w order :
  truthyOS (CancelOrderReq.reason req) = true ->
  stored w (CancelOrderReq.orderId req) order ->
  ~ terminal (Order.status order) ->
  exists order' io',
    cancelOrder env req w =
    (Response.mk 200 "Order cancelled successfully" (BOrder order'),
     World.mk
       (Db.set_orders (<[CancelOrderReq.orderId req := order']> (Db.orders (World.db w)))
          (Db.set_products (restoreStock (Order.items order) (Db.products (World.db w)))
                           (World.db w)))
       io')
    /\ order' = Order.set_updatedAt (Env.now env)
                  (Order.set_updatedAt (Env.now env) (Order.set_status cancelled order)).
Proof.
  intros Hr (Ho & Hid & Hv) Hnt.
  unfold cancelOrder. cbv zeta. rewrite Hr, Ho. simpl negb. cbv iota.
  destruct (includes ["delivered"; "cancelled"] (statusName (Order.status order))) eqn:Ht.
  { apply terminal_statuses in Ht. contradiction. }
  unfold saveOrder.
  match goal with
  | |- context [validate ?x] =>
      assert (Hx : validate x = true) by exact Hv; rewrite Hx
  end.
  cbv zeta. simpl. rewrite Hid. eexists _, _. split; reflexivity.
Qed.

(** X11.  Cancelling an order and then deleting it gives its stock back
    twice: after the two calls the order is gone and the stock of every
    product stands above its level before the cancellation by twice the
    units the order held of it. *)
Theorem cancel_then_delete_releases_twice
    (env : Env.t) (req : CancelOrderReq.t) (w : World.t) (order : Order.t) :
  truthyOS (CancelOrderReq.reason req) = true ->
  stored w (CancelOrderReq.orderId req) order ->
  ~ terminal (Order.status order) ->
  let w1 := snd (cancelOrder env req w) in
  let r2 := deleteOrder (CancelOrderReq.orderId req) w1 in
  Response.status (fst r2) = 200
  /\ Db.orders (World.db (snd r2)) !! CancelOrderReq.orderId req = None
  /\ forall pid,
       Db.products (World.db (snd r2)) !! pid =
       Product.incStock (2 * unitsBoughtOf pid (Order.items order))
         <$> Db.products (World.db w) !! pid.
Proof.
  intros Hr Hst Hnt.
  destruct (cancelOrder_success env req w order Hr Hst Hnt) as (o' & io' & E & Ho').
  rewrite E. simpl. unfold deleteOrder. cbv zeta. simpl.
  rewrite lookup_insert_eq. simpl.
  split; [reflexivity|]. split; [apply lookup_delete_eq|].
  intros pid. rewrite !lookup_restoreStock. subst o'. simpl.
  destruct (Db.products (World.db w) !! pid) as [p|]; simpl; [|reflexivity].
  rewrite incStock_incStock. f_equal. f_equal. lia.
Qed.

Lemma cancel_then_delete_releases_twice_witness :
  stockOf prodA pickedUpWorld = Some 6
  /\ stockOf prodA (snd (deleteOrder order1 cancelledWorld)) = Some 10.
Proof.
  split; [vm_compute; reflexivity|].
  let v := eval vm_compute in (Db.orders (World.db pickedUpWorld) !! order1) in
  match v with
  | Some ?o =>
      destruct (cancel_then_delete_releases_twice demoEnv demoCancel pickedUpWorld o)
        as (_ & _ & H)
  end.
  - reflexivity.
  - split; [vm_compute; reflexivity|]. split; vm_compute; reflexivity.
  - intros [H|H]; discriminate.
  - unfold stockOf.
    etransitivity; [exact (f_equal (fmap Product.stock) (H prodA))|].
    vm_compute. reflexivity.
Defined.

(** ** The lists that partners and customers see *)

Lemma elem_of_findOrders (matches : Order.t -> bool) (d : Db.t) (x : Order.t) :
  x ∈ findOrders matches d <->
  matches x = true /\ exists k, Db.orders d !! k = Some x.
Proof.
  unfold findOrders. rewrite merge_sort_Permutation, list_elem_of_In, filter_In.
  rewrite <- list_elem_of_In, list_elem_of_fmap. split.
  - intros [([k y] & -> & Hin) Hm]. apply elem_of_map_to_list in Hin. eauto.
  - intros [Hm [k Hk]]. split; [|exact Hm].
    exists (k, x). split; [reflexivity|]. apply elem_of_map_to_list. exact Hk.
Qed.

#[local] Instance newerFirst_total : Total newerFirst.
Proof. intros a b. unfold newerFirst. lia. Qed.

Lemma acceptOrder_partner_given env req w :
  Response.status (fst (acceptOrder env req w)) = 200 ->
  truthyOS (AcceptOrderReq.deliveryPartnerId req) = true.
Proof.
  unfold acceptOrder. cbv zeta.
  handler_cases; intros _; apply negb_false_iff; assumption.
Qed.

Lemma listed_available branchId w :
  truthyS branchId = true ->
  listed (getAvailableOrders branchId w) = findOrders (availableFilter branchId) (World.db w).
Proof. intros H. unfold getAvailableOrders. rewrite H. reflexivity. Qed.

Lemma listed_current dp w :
  truthyS dp = true ->
  listed (getCurrentOrders dp w) = findOrders (currentFilter dp) (World.db w).
Proof. intros H. unfold getCurrentOrders. rewrite H. reflexivity. Qed.


(** X12.  Accepting an order moves it from the branch's list of available
    orders to the accepting partner's list of current orders: after
    [acceptOrder] answers 200, [getAvailableOrders] lists the order for
    no branch and [getCurrentOrders] lists it, as accepted, for the
    partner; before the call, if the order had no partner,
    [getAvailableOrders] listed it for its branch. *)
Theorem accepted_order_changes_lists
    (env : Env.t) (req : AcceptOrderReq.t) (w : World.t) (o : Order.t) (dp : string) :
  wellFiled (Db.orders (World.db w)) ->
  Db.orders (World.db w) !! AcceptOrderReq.orderId req = Some o ->
  AcceptOrderReq.deliveryPartnerId req = Some dp ->
  Response.status (fst (acceptOrder env req w)) = 200 ->
  let w' := snd (acceptOrder env req w) in
  (Order.deliveryPartner o = None -> truthyS (Order.branch o) = true ->
   o ∈ listed (getAvailableOrders (Order.branch o) w))
  /\ (forall branchId x,
        x ∈ listed (getAvailableOrders branchId w') ->
        Order._id x <> AcceptOrderReq.orderId req)
  /\ (exists o',
        o' ∈ listed (getCurrentOrders dp w')
        /\ Order._id o' = AcceptOrderReq.orderId req
        /\ Order.status o' = accepted).
Proof.
  intros Hwf Ho Hdp S w'.
  pose proof (acceptOrder_partner_given _ _ _ S) as Hgiven.
  rewrite Hdp in Hgiven. simpl in Hgiven.
  destruct (acceptOrder_success env req w o Hwf Ho S)
    as (Hp & (dp' & partner & Hdp' & _ & _ & o' & Ho' & Hs' & _ & Hd') & _ & _).
  rewrite Hdp in Hdp'. inversion Hdp'; subst dp'.
  pose proof (handle_keeps_wellFiled env (PostAccept req) w Hwf) as Hwf'.
  change (snd (handle env (PostAccept req) w)) with w' in Hwf'.
  fold w' in Ho'.
  split; [|split].
  - intros Hn Hb. rewrite (listed_available _ _ Hb).
    apply elem_of_findOrders. split; [|eauto].
    unfold availableFilter. rewrite String.eqb_refl, Hp, Hn. reflexivity.
  - intros branchId x Hx Hid.
    destruct (truthyS branchId) eqn:Hb;
      [|unfold getAvailableOrders in Hx; rewrite Hb in Hx; inversion Hx].
    rewrite (listed_available _ _ Hb) in Hx.
    apply elem_of_findOrders in Hx as [Hm [k Hk]].
    destruct (Hwf' _ _ Hk) as [Hkid _]. rewrite Hid in Hkid. subst k.
    rewrite Ho' in Hk. inversion Hk; subst x.
    unfold availableFilter in Hm. rewrite Hs' in Hm. simpl in Hm.
    rewrite andb_false_r in Hm. discriminate.
  - exists o'. split; [|split; [exact (proj1 (Hwf' _ _ Ho')) | exact Hs']].
    rewrite (listed_current _ _ Hgiven).
    apply elem_of_findOrders. split; [|eauto].
    unfold currentFilter, partnerIs, statusIn. rewrite Hd', Hs', String.eqb_refl.
    reflexivity.
Qed.

Lemma accepted_order_changes_lists_witness :
  length (listed (getAvailableOrders br1 createdWorld)) = 1%nat
  /\ length (listed (getAvailableOrders br1 acceptedWorld)) = 0%nat
  /\ exists o', o' ∈ listed (getCurrentOrders dp1 acceptedWorld)
                /\ Order._id o' = order1.
Proof.
  split; [vm_compute; reflexivity|]. split; [vm_compute; reflexivity|].
  let v := eval vm_compute in (Db.orders (World.db createdWorld) !! order1) in
  match v with
  | Some ?o =>
      destruct (accepted_order_changes_lists demoEnv (demoAccept order1 dp1)
                  createdWorld o dp1 createdWorld_wellFiled)
        as (_ & _ & (o' & H1 & H2 & _))
  end; [vm_compute; reflexivity | reflexivity | vm_compute; reflexivity |].
  exists o'. split; [exact H1 | exact H2].
Defined.



(** ** Tracking *)

(** X14.  A position reported by the bound partner is what tracking
    shows next: after [updateDeliveryPartnerLocation] answers 200,
    [getOrderTrackingInfo] answers 200 with the unchanged status of the
    order and the reported latitude, longitude and address, stamped with
    the time of the report; accuracy, speed and heading default to 0. *)
Theorem reported_location_is_tracked
    (env : Env.t) (req : UpdateLocationReq.t) (w : World.t) (o : Order.t)
    (loc : Location.t) :
  wellFiled (Db.orders (World.db w)) ->
  Db.orders (World.db w) !! UpdateLocationReq.orderId req = Some o ->
  UpdateLocationReq.location req = Some loc ->
  Response.status (fst (updateDeliveryPartnerLocation env req w)) = 200 ->
  getOrderTrackingInfo (UpdateLocationReq.orderId req)
    (snd (updateDeliveryPartnerLocation env req w))
  = QueryResponse.mk 200 ""
      (QTracking (Order.status o)
         (Location.mk (Location.latitude loc) (Location.longitude loc)
            (Location.address loc) (Some (Env.now env))
            (Some (orN (Location.accuracy loc) zero))
            (Some (orN (Location.speed loc) zero))
            (Some (orN (Location.heading loc) zero))
            (Location.isFinalLocation loc) (Location.deliveredAt loc))).
Proof.
  intros Hwf Ho Hloc S. destruct (Hwf _ _ Ho) as [Hid _].
  destruct (updateDeliveryPartnerLocation env req w) as [resp w'] eqn:E. simpl in *.
  unfold updateDeliveryPartnerLocation in E. cbv zeta in E. rewrite Hloc, Ho in E.
  revert E. handler_cases; intros E; inversion E; subst; clear E; simpl in S;
    try discriminate.
  all: match goal with
       | H : saveOrder _ _ _ = Some _ |- _ =>
           apply saveOrder_inv in H as (_ & -> & Hw & _)
       end.
  all: unfold getOrderTrackingInfo; simpl; simpl in Hw; rewrite Hid in Hw;
    rewrite Hw, lookup_insert_eq; reflexivity.
Qed.

Lemma reported_location_is_tracked_witness :
  QueryResponse.status
    (getOrderTrackingInfo order1
       (snd (updateDeliveryPartnerLocation laterEnv demoReport pickedUpWorld))) = 200.
Proof.
  let v := eval vm_compute in (Db.orders (World.db pickedUpWorld) !! order1) in
  match v with
  | Some ?o =>
      pose proof (reported_location_is_tracked laterEnv demoReport pickedUpWorld o
                    demoPosition pickedUpWorld_wellFiled) as H
  end.
  change (UpdateLocationReq.orderId demoReport) with order1 in H.
  rewrite H; [reflexivity | vm_compute; reflexivity | reflexivity | vm_compute; reflexivity].
Defined.

(** ** Previews *)

(** X15.  A preview costs nothing and promises what the order will hold:
    whenever a cart is ordered with answer 201, the same request sent
    with [preview: true] answers 200, leaves the world untouched (no
    stock taken, no order stored, no event), and lists exactly the line
    items, the [totalPrice] and the [deliveryFee] of that order. *)
Theorem preview_matches_order
    (env : Env.t) (req : CreateOrderReq.t) (w : World.t) (o : Order.t) :
  Response.status (fst (createOrder env req w)) = 201 ->
  Response.body (fst (createOrder env req w)) = BOrder o ->
  exists wholesaleEligible paymentMode,
    createOrder env (asPreview req) w =
    (Response.mk 200 "Order preview calculated successfully"
       (BPreview (Order.items o) (Order.totalPrice o) (Order.deliveryFee o)
                 wholesaleEligible paymentMode), w).
Proof.
  unfold createOrder. cbv zeta. simpl.
  destruct (castObjectId (CreateOrderReq.userId req)) as [customerId|]; [|discriminate].
  destruct (castObjectId (CreateOrderReq.branch req)) as [branchId|]; [|discriminate].
  destruct (Db.customers (World.db w) !! customerId); [|discriminate].
  destruct (Db.branches (World.db w) !! branchId) as [b|]; [|discriminate].
  destruct (findAddress _ _ _) as [[a|]|]; [|discriminate..].
  destruct (productIdsCast (CreateOrderReq.items req)); [|discriminate].
  cbn [negb].
  destruct (priceCart _ _ _) as [e| |cis total elig]; [destruct e; discriminate|discriminate|].
  destruct (CreateOrderReq.preview req); [discriminate|].
  destruct (isCOD (CreateOrderReq.paymentMode req) && negb elig); [discriminate|].
  destruct (Branch.location b) as [[lat lon]|]; [|discriminate].
  destruct (saveNewOrder _ _ _) as [[saved d2]|] eqn:Hs; [|discriminate].
  simpl. intros _ Hb. inversion Hb; subst saved.
  unfold saveNewOrder in Hs.
  match type of Hs with
  | (if validate ?x && numbersCast ?x then _ else _) = _ =>
      destruct (validate x && numbersCast x); [|discriminate]
  end.
  inversion Hs as [[Ho Hd]]. clear Hs.
  eexists _, _. f_equal. f_equal. f_equal;
    destruct (isCOD (CreateOrderReq.paymentMode req)); reflexivity.
Qed.

Lemma preview_matches_order_witness :
  exists items elig mode,
    createOrder demoEnv (asPreview (demoCreate None)) (demoWorld false) =
    (Response.mk 200 "Order preview calculated successfully"
       (BPreview items (ofZ 250) (ofZ 49) elig mode), demoWorld false).
Proof.
  let v := eval vm_compute in (Response.body (fst (createOrder demoEnv (demoCreate None)
                                                     (demoWorld false)))) in
  match v with
  | BOrder ?o =>
      destruct (preview_matches_order demoEnv (demoCreate None) (demoWorld false) o)
        as (elig & mode & H)
  end; [vm_compute; reflexivity | vm_compute; reflexivity |].
  eexists _, elig, mode. exact H.
Defined.

(** ** Client errors *)

(** X16.  A request that the routes of [handle] answer with a 4xx client
    error has changed nothing at all, neither a document nor a room nor the
    log of events, with one exception: [acceptOrder], whose 4xx answers
    leave orders, partners and rooms untouched but may have lowered the
    stock of some products. *)
Theorem client_errors_change_nothing
    (env : Env.t) (request : Request) (w : World.t) :
  400 <= Response.status (fst (handle env request w)) < 500 ->
  match request with
  | PostAccept _ =>
      exists products',
        snd (handle env request w)
        = World.mk (Db.set_products products' (World.db w)) (World.io w)
  | _ => snd (handle env request w) = w
  end.
Proof.
  destruct request as [req|req|req|req|req|req|req|req|req|id]; simpl.
  - unfold createOrder. cbv zeta. handler_cases; intros; (reflexivity || lia).
  - unfold confirmOrder. cbv zeta. handler_cases; intros; (reflexivity || lia).
  - unfold acceptOrder. cbv zeta. handler_cases; intros; try lia.
    all: try (exists (Db.products (World.db w)); destruct w as [[? ? ? ? ? ? ?] ?];
              reflexivity).
    eexists. reflexivity.
  - unfold pickupOrder. cbv zeta. handler_cases; intros; (reflexivity || lia).
  - unfold markOrderAsDelivered. cbv zeta. handler_cases; intros; (reflexivity || lia).
  - unfold updateDeliveryPartnerLocation. cbv zeta.
    handler_cases; intros; (reflexivity || lia).
  - unfold updateOrderStatus. cbv zeta. handler_cases; intros; (reflexivity || lia).
  - unfold confirmDeliveryReceipt. cbv zeta. handler_cases; intros; (reflexivity || lia).
  - unfold cancelOrder. cbv zeta. handler_cases; intros; (reflexivity || lia).
  - unfold deleteOrder. cbv zeta. handler_cases; intros; (reflexivity || lia).
Qed.

Lemma client_errors_change_nothing_witness :
  snd (handle demoEnv (PostPickup (PickupOrderReq.mk order1 (Some dp2) None))
              acceptedWorld) = acceptedWorld.
Proof.
  apply (client_errors_change_nothing demoEnv
           (PostPickup (PickupOrderReq.mk order1 (Some dp2) None)) acceptedWorld).
  vm_compute. split; [intro H; discriminate H | reflexivity].
Defined.
(** ** The rate limiter *)

Lemma laterThan_app ws l l' : laterThan ws (l ++ l') = laterThan ws l ++ laterThan ws l'.
Proof. apply List.filter_app. Qed.

Lemma laterThan_laterThan ws ws' l :
  ws' <= ws -> laterThan ws (laterThan ws' l) = laterThan ws l.
Proof.
  intros Hle. induction l as [|x l IH]; [reflexivity|].
  simpl. destruct (ws' <? x) eqn:E'; simpl.
  - rewrite IH. reflexivity.
  - rewrite IH. destruct (ws <? x) eqn:E; [|reflexivity].
    apply Z.ltb_lt in E. apply Z.ltb_ge in E'. lia.
Qed.

Lemma lookup_cleanupStore ws store k :
  default [] (cleanupStore ws store !! k) = laterThan ws (default [] (store !! k)).
Proof.
  unfold cleanupStore. rewrite lookup_omap.
  destruct (store !! k) as [v|]; simpl; [|reflexivity].
  destruct (laterThan ws v); reflexivity.
Qed.

(** What one call does to the entry of a key. *)
Lemma checkRateLimit_entry now cleanup key limit store k :
  let r := checkRateLimit now cleanup key limit store in
  let ws := now - RateLimit.windowMs limit in
  let old := default [] (store !! k) in
  fst r = (if String.eqb key k then true else fst r) &&
          negb (RateLimit.maxRequests limit
                <=? Z.of_nat (length (laterThan ws (default [] (store !! key)))))
  /\ laterThan ws (default [] (snd r !! k))
     = laterThan ws (old ++ if fst r && String.eqb key k then [now] else []).
Proof.
  cbv zeta. unfold checkRateLimit. cbv zeta.
  set (ws := now - RateLimit.windowMs limit).
  set (store1 := match store !! key with None => <[key:=[]]> store | Some _ => store end).
  assert (H1 : forall k', default [] (store1 !! k') = default [] (store !! k')).
  { intros k'. unfold store1. destruct (store !! key) eqn:E; [reflexivity|].
    destruct (decide (key = k')) as [->|Hne].
    - rewrite lookup_insert_eq, E. reflexivity.
    - rewrite lookup_insert_ne by exact Hne. reflexivity. }
  rewrite (H1 key).
  destruct (RateLimit.maxRequests limit
            <=? Z.of_nat (length (laterThan ws (default [] (store !! key))))) eqn:E.
  - simpl. rewrite H1, app_nil_r. split; [|reflexivity].
    destruct (String.eqb key k); reflexivity.
  - cbn [fst snd]. split; [destruct (String.eqb key k); reflexivity|].
    assert (H2 : laterThan ws
                   (default [] (<[key:=laterThan ws (default [] (store !! key)) ++ [now]]>
                                  store1 !! k))
                 = laterThan ws (default [] (store !! k)
                                 ++ (if true && String.eqb key k then [now] else []))).
    { destruct (String.eqb_spec key k) as [->|Hne].
      - rewrite lookup_insert_eq. simpl.
        rewrite !laterThan_app, laterThan_laterThan by lia. reflexivity.
      - rewrite lookup_insert_ne by exact Hne. rewrite H1. simpl.
        rewrite app_nil_r. reflexivity. }
    destruct cleanup; [|exact H2].
    rewrite lookup_cleanupStore, laterThan_laterThan by lia. exact H2.
Qed.

(** The entry of [key] holds, as far as any later call can see, exactly
    the times let through so far. *)
Definition tracks (w : Z) (key : string) (last : Z) (acc : list Z)
    (store : gmap string (list Z)) : Prop :=
  Forall (fun x => x <= last) acc
  /\ forall ws, last - w <= ws -> laterThan ws (default [] (store !! key)) = laterThan ws acc.

Lemma tracks_step w key last acc store c :
  tracks w key last acc store ->
  last <= Call.now c ->
  RateLimit.windowMs (Call.limit c) = w ->
  tracks w key (Call.now c)
    (acc ++ if fst (check c store) && String.eqb (Call.key c) key then [Call.now c] else [])
    (snd (check c store))
  /\ (Call.key c = key ->
      fst (check c store)
      = negb (RateLimit.maxRequests (Call.limit c)
              <=? Z.of_nat (length (laterThan (Call.now c - w) acc)))).
Proof.
  intros [Ha Hb] Hle Hw.
  pose proof (checkRateLimit_entry (Call.now c) (Call.cleanup c) (Call.key c)
                (Call.limit c) store key) as [Hv He].
  cbv zeta in Hv, He. fold (check c store) in Hv, He. rewrite Hw in Hv, He.
  split; [split|].
  - apply Forall_app. split.
    + eapply Forall_impl; [exact Ha|]. simpl. intros; lia.
    + destruct (fst (check c store) && String.eqb (Call.key c) key);
        [repeat constructor; lia | constructor].
  - intros ws Hws.
    rewrite <- (laterThan_laterThan ws (Call.now c - w)) by lia.
    rewrite He. rewrite (laterThan_laterThan ws (Call.now c - w)) by lia.
    rewrite !laterThan_app. rewrite Hb by lia. reflexivity.
  - intros Hk. rewrite Hv. rewrite Hk, String.eqb_refl. simpl.
    rewrite Hb by lia. reflexivity.
Qed.

Lemma tracks_empty w key last : tracks w key last [] ∅.
Proof. split; [constructor|]. intros ws _. rewrite lookup_empty. reflexivity. Qed.

Lemma within_app w t l l' : within w t (l ++ l') = within w t l + within w t l'.
Proof. unfold within. rewrite List.filter_app, length_app. lia. Qed.

Lemma within_nonneg w t l : 0 <= within w t l.
Proof. unfold within. lia. Qed.

Lemma within_le_laterThan w t l :
  within w t l <= Z.of_nat (length (laterThan (t - w) l)).
Proof.
  unfold within, laterThan. induction l as [|x l IH]; simpl; [lia|].
  destruct (t - w <? x); simpl; [|exact IH].
  destruct (x <=? t); simpl; lia.
Qed.

Lemma laterThan_length_mono ws ws' l :
  ws' <= ws -> (length (laterThan ws l) <= length (laterThan ws' l))%nat.
Proof.
  intros Hle. induction l as [|x l IH]; simpl; [lia|].
  destruct (ws <? x) eqn:E.
  - apply Z.ltb_lt in E. assert (E' : (ws' <? x) = true) by (apply Z.ltb_lt; lia).
    rewrite E'. simpl. lia.
  - destruct (ws' <? x); simpl; lia.
Qed.

Lemma within_before w t l : Forall (fun x => t < x) l -> within w t l = 0.
Proof.
  unfold within. induction 1 as [|x l Hx _ IH]; simpl; [reflexivity|].
  assert (E : (x <=? t) = false) by (apply Z.leb_gt; exact Hx).
  rewrite E, andb_false_r. exact IH.
Qed.

(** The bound is kept along a run. *)
Lemma passed_bounded w m key : forall calls last acc store,
  0 <= m ->
  tracks w key last acc store ->
  (forall t, within w t acc <= m) ->
  Sorted Z.le (last :: (Call.now <$> calls)) ->
  (forall c, c ∈ calls -> RateLimit.windowMs (Call.limit c) = w) ->
  (forall c, c ∈ calls -> Call.key c = key -> RateLimit.maxRequests (Call.limit c) = m) ->
  forall t, within w t (acc ++ passed key calls store) <= m.
Proof.
  induction calls as [|c calls IH]; intros last acc store Hm Ht Hacc Hs Hw Hk t.
  - simpl. rewrite app_nil_r. apply Hacc.
  - simpl. rewrite app_assoc.
    assert (Hle : last <= Call.now c).
    { apply Sorted_inv in Hs as [_ Hd]. inversion Hd; subst. assumption. }
    destruct (tracks_step w key last acc store c Ht Hle) as [Ht' Hv].
    { apply Hw. left. }
    apply (IH (Call.now c)); try assumption.
    + clear t. intros t. rewrite within_app.
      destruct (fst (check c store) && String.eqb (Call.key c) key) eqn:E.
      * apply andb_true_iff in E as [E1 E2]. apply String.eqb_eq in E2.
        rewrite (Hv E2) in E1. rewrite (Hk c) in E1 by (left || exact E2).
        apply negb_true_iff, Z.leb_gt in E1.
        destruct (Z_lt_le_dec t (Call.now c)) as [Hlt|Hge].
        -- rewrite (within_before w t [Call.now c]) by (repeat constructor; lia).
           specialize (Hacc t). lia.
        -- pose proof (within_le_laterThan w t acc).
           pose proof (laterThan_length_mono (t - w) (Call.now c - w) acc ltac:(lia)).
           assert (within w t [Call.now c] <= 1)
             by (unfold within; simpl; destruct (_ && _); simpl; lia).
           lia.
      * unfold within at 2. simpl. specialize (Hacc t). lia.
    + simpl in Hs. apply Sorted_inv in Hs as [Hs _]. exact Hs.
    + intros c' Hc'. apply Hw. right. exact Hc'.
    + intros c' Hc'. apply Hk. right. exact Hc'.
Qed.

(** X17.  The limiter holds its bound.  In a run of calls that starts
    with an empty store, is made at non-decreasing times and uses one
    window length, where every call under a key has the same maximum,
    no window of that length contains more than the maximum of calls
    let through under the key, whatever the random cleanups did. *)
Theorem rate_limit_is_never_exceeded
    (w m : Z) (key : string) (calls : list Call.t) (t : Z) :
  0 <= m ->
  Sorted Z.le (Call.now <$> calls) ->
  (forall c, c ∈ calls -> RateLimit.windowMs (Call.limit c) = w) ->
  (forall c, c ∈ calls -> Call.key c = key -> RateLimit.maxRequests (Call.limit c) = m) ->
  within w t (passed key calls ∅) <= m.
Proof.
  intros Hm Hs Hw Hk.
  destruct calls as [|c calls]; [simpl; exact Hm|].
  apply (passed_bounded w m key (c :: calls) (Call.now c) [] ∅); try assumption.
  - apply tracks_empty.
  - intros t'. exact Hm.
  - constructor; [exact Hs|]. constructor. simpl. lia.
Qed.

Lemma rate_limit_is_never_exceeded_witness :
  within (60 * 1000) 24 (passed "auth_9999000011" demoCalls ∅) <= 20.
Proof.
  apply (rate_limit_is_never_exceeded (60 * 1000) 20 "auth_9999000011" demoCalls 24).
  - lia.
  - vm_compute. repeat constructor; intro H; discriminate H.
  - refine (proj1 (Forall_forall _ _) _). vm_compute. repeat constructor.
  - refine (proj1 (Forall_forall _ _) _). vm_compute. repeat constructor.
Defined.

Lemma tracks_later w key last last' acc store :
  tracks w key last acc store -> last <= last' -> tracks w key last' acc store.
Proof.
  intros [Ha Hb] Hle. split.
  - eapply Forall_impl; [exact Ha|]. simpl. intros; lia.
  - intros ws Hws. apply Hb. lia.
Qed.

Lemma tracks_run w key u : forall calls last acc store,
  tracks w key last acc store ->
  Sorted Z.le (last :: (Call.now <$> calls) ++ [u]) ->
  (forall c, c ∈ calls -> RateLimit.windowMs (Call.limit c) = w) ->
  tracks w key u (acc ++ passed key calls store) (serve calls store).
Proof.
  induction calls as [|c calls IH]; intros last acc store Ht Hs Hw.
  - simpl. rewrite app_nil_r. apply (tracks_later _ _ last); [exact Ht|].
    apply Sorted_inv in Hs as [_ Hd]. inversion Hd; subst. assumption.
  - simpl. rewrite app_assoc. simpl in Hs.
    apply Sorted_inv in Hs as [Hs Hd].
    apply (IH (Call.now c)).
    + apply (tracks_step w key last acc store c Ht);
        [inversion Hd; subst; assumption | apply Hw; left].
    + exact Hs.
    + intros c' Hc'. apply Hw. right. exact Hc'.
Qed.

(** X18.  The limiter is exact.  In a run from an empty store at
    non-decreasing times with one window length, a call is let through
    exactly when fewer calls than its maximum were let through under its
    key during the window that ends with it; in particular no cleanup,
    whoever triggered it, makes the limiter forget a call that still
    counts or refuse a client that is below the limit. *)
Theorem rate_limit_is_exact (w : Z) (pre : list Call.t) (c : Call.t) :
  Sorted Z.le (Call.now <$> (pre ++ [c])) ->
  (forall c', c' ∈ pre ++ [c] -> RateLimit.windowMs (Call.limit c') = w) ->
  fst (check c (serve pre ∅))
  = (Z.of_nat (length (laterThan (Call.now c - w) (passed (Call.key c) pre ∅)))
     <? RateLimit.maxRequests (Call.limit c)).
Proof.
  intros Hs Hw. rewrite fmap_app in Hs. simpl in Hs.
  assert (Ht : tracks w (Call.key c) (Call.now c)
                 ([] ++ passed (Call.key c) pre ∅) (serve pre ∅)).
  { destruct pre as [|c0 pre].
    - simpl. apply tracks_empty.
    - apply (tracks_run w (Call.key c) (Call.now c) (c0 :: pre) (Call.now c0)).
      + apply tracks_empty.
      + constructor; [exact Hs|]. constructor. simpl. lia.
      + intros c' Hc'. apply Hw. apply elem_of_app. left. exact Hc'. }
  simpl in Ht.
  destruct (tracks_step w (Call.key c) (Call.now c) _ _ c Ht) as [_ Hv].
  - lia.
  - apply Hw. apply elem_of_app. right. left.
  - rewrite (Hv eq_refl). symmetry. apply Z.ltb_antisym.
Qed.

Lemma rate_limit_is_exact_witness :
  fst (check (Call.mk 20 true "auth_9999000011" RATE_LIMITS_AUTH)
             (serve (take 20 demoCalls) ∅)) = false
  /\ fst (check (Call.mk 60000 true "auth_9999000011" RATE_LIMITS_AUTH)
                (serve (take 20 demoCalls) ∅)) = true.
Proof.
  split.
  - rewrite (rate_limit_is_exact (60 * 1000) (take 20 demoCalls)
               (Call.mk 20 true "auth_9999000011" RATE_LIMITS_AUTH)).
    + vm_compute. reflexivity.
    + vm_compute. repeat constructor; intro H; discriminate H.
    + refine (proj1 (Forall_forall _ _) _). vm_compute. repeat constructor.
  - rewrite (rate_limit_is_exact (60 * 1000) (take 20 demoCalls)
               (Call.mk 60000 true "auth_9999000011" RATE_LIMITS_AUTH)).
    + vm_compute. reflexivity.
    + vm_compute. repeat constructor; intro H; discriminate H.
    + refine (proj1 (Forall_forall _ _) _). vm_compute. repeat constructor.
Defined.
